(** * Atlas Search index scripts and the embedding client

    A shallow embedding of
    - [scripts/create-indexes.ts] in its two variants (the longer one has
      [showIndexDefinitions], [createIndex], [updateIndex] and
      [ensureIndex]; the shorter one only lists the indexes), and
    - [embeddings/openai.ts] ([getEmbeddingFromAzureSDK]).

    The scripts are glue code around three outside parties: the Node
    runtime ([process.env], [fs], [path], [readline], [console]), the
    MongoDB driver and the OpenAI SDK.  The outside parties are a record of
    oracles, [World]; a program is a function from the history of calls made
    so far to its outcome (a value or a thrown error) and the calls it makes
    itself.  A question on standard input may never get an answer: [prompt]
    then never resolves and the program that awaits it stays pending.  The
    calls to the driver and to the SDK are taken to settle, with a value or
    with a rejection. *)

From Stdlib Require Import PrimFloat Ascii.
From stdpp Require Import base strings gmap list.

(** ** Data *)

(** The value [JSON.parse] builds; a JS number is an IEEE-754 double. *)
#[local] Set Warnings "-register-all".
Inductive json : Type :=
| JNull
| JBool (b : bool)
| JNumber (n : float)
| JString (s : string)
| JArray (items : list json)
| JObject (fields : list (string * json)).

(** [type IndexSpec = { col: string; name: string; file: string }] *)
Record IndexSpec : Type := { col : string; name : string; file : string }.

(** [const ALL_SPECS: IndexSpec[]] *)
Definition ALL_SPECS : list IndexSpec :=
  [ {| col := "products"; name := "vector"; file := "products.vector.json" |};
    {| col := "products"; name := "hybrid"; file := "products.hybrid.json" |};
    {| col := "docs";     name := "vector"; file := "docs.vector.json" |};
    {| col := "tickets";  name := "hybrid"; file := "tickets.hybrid.json" |} ].

(** A document of the [listSearchIndexes] cursor: the driver types it
    [{ name: string }]; whatever else the server sends is kept in [idx_rest]. *)
Record SearchIndexDoc : Type := { idx_name : string; idx_rest : json }.

(** Values a JS [throw] carries here. *)
Inductive error : Type :=
| SystemError (code syscall path : string)  (* Node's fs errors *)
| SyntaxError (message : string)            (* JSON.parse *)
| TypeError (message : string)
| MongoError (message : string)             (* the mongodb driver *)
| OpenAIError (message : string).           (* the openai SDK *)

(** How an awaited program ends: with a value, with a thrown error, or never
    ([Pending]: a promise that does not settle). *)
Inductive result (A : Type) : Type :=
| Ok (a : A)
| Throw (e : error)
| Pending.
Arguments Ok {A} a.
Arguments Throw {A} e.
Arguments Pending {A}.

(** Handles of the MongoDB driver. *)
Inductive MongoClient : Type := ClientHandle (uri : string).
Inductive Db : Type := DbHandle (dbName : string).
Inductive Collection : Type := CollectionHandle (dbName colName : string).
Inductive Cursor : Type := CursorHandle (dbName colName : string).

(** The OpenAI SDK: constructor options, request and response.  A field read
    from [process.env] may be [undefined] ([None]): the [!] of the source is
    erased by the TypeScript compiler. *)
Record ClientOptions : Type :=
  { apiKey : option string;
    baseURL : option string;
    defaultQuery : list (string * option string) }.
Inductive OpenAI : Type := OpenAIHandle (opts : ClientOptions).
Record EmbeddingCreateParams : Type := { model : option string; input : string }.
Record Embedding : Type := { embedding : list float; emb_index : nat }.
Record CreateEmbeddingResponse : Type :=
  { data : list Embedding; res_model : string }.

(** Arguments of [console.log] and [console.error]. *)
Inductive jsval : Type :=
| VString (s : string)
| VStrings (l : list string)
| VError (e : error).

(** A call that leaves the program. *)
Inductive event : Type :=
| EReadFileSync (path : string)
| EQuestion (question : string)
| ENewMongoClient (uri : string)
| EConnect (c : MongoClient)
| EDb (c : MongoClient) (dbName : string)
| ECollection (db : Db) (colName : string)
| EListSearchIndexes (c : Collection)
| EToArray (c : Cursor)
| ECreateSearchIndex (c : Collection) (definition : json)
| EUpdateSearchIndex (c : Collection) (name : string) (definition : json)
| EClose (c : MongoClient)
| EConsoleLog (args : list jsval)
| EConsoleError (args : list jsval)
| EConsoleDir (d : SearchIndexDoc)
| ENewOpenAI (opts : ClientOptions)
| EEmbeddingsCreate (c : OpenAI) (params : EmbeddingCreateParams).

(** ** The world outside the program *)

(** An oracle of the driver or of the SDK sees the calls made before it, so a
    server may answer the same call differently the second time.  [stdin n]
    is the line the [n]-th question receives, if it ever receives one: each
    question reads through a readline interface of its own, so a line that
    arrives before its question is asked, or an input that has ended, leaves
    the question without an answer. *)
Record World : Type :=
  { env : gmap string string;                (* process.env *)
    argv : list string;                      (* process.argv.slice(2) *)
    cwd : string;                            (* process.cwd() *)
    path_join : list string -> string;       (* path.join *)
    fs : gmap string string;                 (* files by path, utf8 contents *)
    json_parse : string -> json + string;    (* value, or SyntaxError message *)
    stdin : nat -> option string;
    mongo_new : list event -> string -> option error;
    mongo_connect : list event -> MongoClient -> option error;
    mongo_db : list event -> MongoClient -> string -> option error;
    mongo_collection : list event -> Db -> string -> option error;
    mongo_listSearchIndexes : list event -> Collection -> option error;
    toArray_answer : list event -> Cursor -> error + list SearchIndexDoc;
    mongo_createSearchIndex : list event -> Collection -> json -> option error;
    mongo_updateSearchIndex :
      list event -> Collection -> string -> json -> option error;
    mongo_close : list event -> MongoClient -> option error;
    openai_new : list event -> ClientOptions -> option error;
    embeddings_answer :
      list event -> OpenAI -> EmbeddingCreateParams ->
      error + CreateEmbeddingResponse }.

(** A call that settles: rejected or resolved. *)
Definition settled {A} (a : error + A) : result A :=
  match a with inl e => Throw e | inr v => Ok v end.

(** [cursor.toArray()] and [client.embeddings.create(...)], awaited. *)
Definition mongo_toArray (W : World) (h : list event) (c : Cursor)
  : result (list SearchIndexDoc) :=
  settled (toArray_answer W h c).

Definition openai_embeddings_create (W : World) (h : list event) (c : OpenAI)
    (params : EmbeddingCreateParams) : result CreateEmbeddingResponse :=
  settled (embeddings_answer W h c params).

Arguments mongo_toArray : simpl never.
Arguments openai_embeddings_create : simpl never.

(** ** Programs *)

(** [M A]: given the history, the outcome and the events emitted, oldest
    first. *)
Definition M (A : Type) : Type := list event -> result A * list event.

Definition ret {A} (a : A) : M A := fun _ => (Ok a, []).
Definition throw {A} (e : error) : M A := fun _ => (Throw e, []).

Definition bind {A B} (m : M A) (k : A -> M B) : M B :=
  fun h =>
    match m h with
    | (Ok a, t) => let (r, t') := k a (h ++ t) in (r, t ++ t')
    | (Throw e, t) => (Throw e, t)
    | (Pending, t) => (Pending, t)
    end.

(** [try { m } catch (err) { handler err }] *)
Definition try_catch {A} (m : M A) (handler : error -> M A) : M A :=
  fun h =>
    match m h with
    | (Ok a, t) => (Ok a, t)
    | (Throw e, t) => let (r, t') := handler e (h ++ t) in (r, t ++ t')
    | (Pending, t) => (Pending, t)
    end.

(** One outside call: the event, and the oracle's answer to it. *)
Definition call {A} (ev : event) (answer : list event -> result A) : M A :=
  fun h => (answer h, [ev]).

Definition emit (ev : event) : M unit := fun _ => (Ok tt, [ev]).

Definition unit_answer (o : option error) : result unit :=
  match o with None => Ok tt | Some e => Throw e end.

Definition handle_answer {A} (a : A) (o : option error) : result A :=
  match o with None => Ok a | Some e => Throw e end.

(** stdpp's monad notation: [x ← m; k] and [m;; k]. *)
#[global] Instance M_ret : MRet M := @ret.
#[global] Instance M_bind : MBind M := fun A B k m => bind m k.

Definition outcome {A} (r : result A * list event) : result A := fst r.
Definition emitted {A} (r : result A * list event) : list event := snd r.

(** ** Node built-ins *)

(** [String.prototype.trim] on a UTF-8 string: white space and line
    terminators of ECMAScript, one, two or three bytes long. *)
Definition ws1 (a : ascii) : bool :=
  bool_decide (nat_of_ascii a ∈ [9; 10; 11; 12; 13; 32]).

(* U+00A0 *)
Definition ws2 (a b : ascii) : bool :=
  bool_decide ((nat_of_ascii a, nat_of_ascii b) = (194, 160)).

(* U+1680, U+2000..U+200A, U+2028, U+2029, U+202F, U+205F, U+3000, U+FEFF *)
Definition ws3 (a b c : ascii) : bool :=
  let '(x, y, z) := (nat_of_ascii a, nat_of_ascii b, nat_of_ascii c) in
  bool_decide ((x, y, z) ∈ [(225, 154, 128); (226, 128, 168); (226, 128, 169);
                             (226, 128, 175); (226, 129, 159); (227, 128, 128);
                             (239, 187, 191)])
  || (bool_decide (x = 226) && bool_decide (y = 128)
      && bool_decide (128 ≤ z) && bool_decide (z ≤ 138)).

(** Strip leading white space; [flip] reads the bytes of a character in
    reverse, for a reversed string. *)
Fixpoint strip (flip : bool) (s : list ascii) {struct s} : list ascii :=
  match s with
  | a :: s1 =>
      if ws1 a then strip flip s1 else
      match s1 with
      | b :: s2 =>
          if (if flip then ws2 b a else ws2 a b) then strip flip s2 else
          match s2 with
          | c :: s3 =>
              if (if flip then ws3 c b a else ws3 a b c)
              then strip flip s3 else s
          | [] => s
          end
      | [] => s
      end
  | [] => s
  end.

Definition trim (s : string) : string :=
  String.string_of_list_ascii
    (rev (strip true (rev (strip false (String.list_ascii_of_string s))))).

(** [arr.includes(x)] on strings *)
Definition includes (arr : list string) (x : string) : bool :=
  existsb (String.eqb x) arr.

(** A string is truthy unless it is [undefined] or empty. *)
Definition truthy (v : option string) : option string :=
  match v with
  | Some "" => None
  | Some s => Some s
  | None => None
  end.

Definition nl : string := String "010" "".

Definition is_question (ev : event) : bool :=
  match ev with EQuestion _ => true | _ => false end.

(** The number of questions asked so far. *)
Definition questions_asked (h : list event) : nat :=
  length (List.filter is_question h).

Section Programs.
Context (W : World).

(** *** Calls to the runtime, the driver and the SDK *)

(** [readFileSync(path, "utf8")]: a missing file throws ENOENT, which
    carries the path. *)
Definition readFileSync (path : string) : M string :=
  call (EReadFileSync path) (λ _,
    match fs W !! path with
    | Some text => Ok text
    | None => Throw (SystemError "ENOENT" "open" path)
    end).

(** [JSON.parse(text)] sees the text only. *)
Definition JSON_parse (text : string) : M json :=
  match json_parse W text with
  | inl v => mret v
  | inr message => throw (SyntaxError message)
  end.

Definition console_log (args : list jsval) : M unit := emit (EConsoleLog args).
Definition console_error (args : list jsval) : M unit :=
  emit (EConsoleError args).
Definition console_dir (d : SearchIndexDoc) : M unit := emit (EConsoleDir d).

Definition new_MongoClient (uri : string) : M MongoClient :=
  call (ENewMongoClient uri)
       (λ h, handle_answer (ClientHandle uri) (mongo_new W h uri)).

Definition client_connect (client : MongoClient) : M unit :=
  call (EConnect client) (λ h, unit_answer (mongo_connect W h client)).

Definition client_db (client : MongoClient) (dbName : string) : M Db :=
  call (EDb client dbName)
       (λ h, handle_answer (DbHandle dbName) (mongo_db W h client dbName)).

Definition client_close (client : MongoClient) : M unit :=
  call (EClose client) (λ h, unit_answer (mongo_close W h client)).

Definition db_collection (db : Db) (colName : string) : M Collection :=
  call (ECollection db colName)
       (λ h, let 'DbHandle dbName := db in
             handle_answer (CollectionHandle dbName colName)
                           (mongo_collection W h db colName)).

Definition col_listSearchIndexes (c : Collection) : M Cursor :=
  call (EListSearchIndexes c)
       (λ h, let 'CollectionHandle dbName colName := c in
             handle_answer (CursorHandle dbName colName)
                           (mongo_listSearchIndexes W h c)).

Definition cursor_toArray (cursor : Cursor) : M (list SearchIndexDoc) :=
  call (EToArray cursor) (λ h, mongo_toArray W h cursor).

Definition col_createSearchIndex (c : Collection) (definition : json)
  : M unit :=
  call (ECreateSearchIndex c definition)
       (λ h, unit_answer (mongo_createSearchIndex W h c definition)).

Definition col_updateSearchIndex (c : Collection) (name : string)
    (definition : json) : M unit :=
  call (EUpdateSearchIndex c name definition)
       (λ h, unit_answer (mongo_updateSearchIndex W h c name definition)).

Definition new_OpenAI (opts : ClientOptions) : M OpenAI :=
  call (ENewOpenAI opts)
       (λ h, handle_answer (OpenAIHandle opts) (openai_new W h opts)).

Definition embeddings_create (client : OpenAI)
    (params : EmbeddingCreateParams) : M CreateEmbeddingResponse :=
  call (EEmbeddingsCreate client params)
       (λ h, openai_embeddings_create W h client params).

(** [await x] on a value that is no promise *)
Definition await_value {A} (x : A) : M A := mret x.

(** [arr.forEach(f)] *)
Fixpoint forEach {A} (arr : list A) (f : A -> M unit) : M unit :=
  match arr with
  | [] => mret tt
  | x :: rest => f x;; forEach rest f
  end.

(** *** scripts/create-indexes.ts *)

Definition loadDefinition (file : string) : M json :=
  let full := path_join W [cwd W; "config"; "indexes"; file] in
  text ← readFileSync full;
  JSON_parse text.

Definition listExistingIndexes (db : Db) (colName : string)
  : M (list string) :=
  col ← db_collection db colName;
  try_catch
    (cursor ← col_listSearchIndexes col;
     all ← cursor_toArray cursor;
     mret (map idx_name all))
    (λ err,
       console_error
         [VString ("Failed to list indexes for " +:+ colName +:+ ":");
          VError err];;
       mret []).

Definition showIndexDefinitions (db : Db) (colName : string) : M unit :=
  col ← db_collection db colName;
  cursor ← col_listSearchIndexes col;
  indexes ← cursor_toArray cursor;
  if bool_decide (length indexes = 0) then
    console_log [VString ("No indexes found for collection " +:+ colName)]
  else
    console_log
      [VString (nl +:+ "✔ Index definitions for '" +:+ colName +:+ "':"
                +:+ nl)];;
    forEach indexes (λ idx,
      console_log [VString ("🟢 Index name: " +:+ idx_name idx)];;
      console_dir idx;;
      console_log [VString ("──────────────────────────────" +:+ nl)]).

Definition createIndex (db : Db) (col name : string) (definition : json)
  : M unit :=
  indexCollection ← db_collection db col;
  col_createSearchIndex indexCollection definition;;
  console_log
    [VString ("Created index " +:+ name +:+ " on collection " +:+ col)].

Definition updateIndex (db : Db) (col name : string) (definition : json)
  : M unit :=
  indexCollection ← db_collection db col;
  col_updateSearchIndex indexCollection name definition;;
  console_log
    [VString ("Updated index " +:+ name +:+ " on collection " +:+ col)].

Definition ensureIndex (db : Db) (spec : IndexSpec) : M unit :=
  existingIndexes ← listExistingIndexes db (col spec);
  definition ← loadDefinition (file spec);
  indexCollection ← db_collection db (col spec);
  if includes existingIndexes (name spec) then
    await_value indexCollection;; mret tt
  else
    mret tt.

(** [rl.question] prints the question; the promise resolves in its callback,
    with the line trimmed, and so only if the question receives a line. *)
Definition prompt (question : string) : M string :=
  call (EQuestion question) (λ h,
    match stdin W (questions_asked h) with
    | Some answer => Ok (trim answer)
    | None => Pending
    end).

(** [v || await m] *)
Definition or_else (v : option string) (m : M string) : M string :=
  match truthy v with
  | Some s => mret s
  | None => m
  end.

(** *** embeddings/openai.ts *)

Definition getEmbeddingFromAzureSDK (text : string) : M (list float) :=
  let apiKey := env W !! "OPENAI_API_KEY" in
  let baseURL := env W !! "OPENAI_BASE_URL" in
  let apiVer := env W !! "OPENAI_API_VERSION" in
  let model := env W !! "OPENAI_EMBEDDING_MODEL" in
  client ← new_OpenAI {| apiKey := apiKey;
                         baseURL := baseURL;
                         defaultQuery := [("api-version", apiVer)] |};
  res ← embeddings_create client {| model := model; input := text |};
  match data res !! 0 with
  | Some first => mret (embedding first)
  | None =>
      throw (TypeError
               "Cannot read properties of undefined (reading 'embedding')")
  end.

End Programs.

(** The two object literals [getEmbeddingFromAzureSDK] builds from the
    environment. *)
Definition env_options (W : World) : ClientOptions :=
  {| apiKey := env W !! "OPENAI_API_KEY";
     baseURL := env W !! "OPENAI_BASE_URL";
     defaultQuery := [("api-version", env W !! "OPENAI_API_VERSION")] |}.

(** The path [loadDefinition] reads: [full] in the source. *)
Definition definition_path (W : World) (file : string) : string :=
  path_join W [cwd W; "config"; "indexes"; file].

Definition env_params (W : World) (text : string) : EmbeddingCreateParams :=
  {| model := env W !! "OPENAI_EMBEDDING_MODEL"; input := text |}.

(** ** Entry points *)

(** The longer variant of the script: it also prints every definition. *)
Module Part000.

Definition main (W : World) : M unit :=
  uri ← or_else (env W !! "MONGODB_URI") (prompt W "Enter your MongoDB URI: ");
  dbName ← or_else (env W !! "MONGODB_DB") (prompt W "Enter database name: ");
  colName ← prompt W "Enter collection name: ";
  client ← new_MongoClient W uri;
  client_connect W client;;
  db ← client_db W client dbName;
  indexes ← listExistingIndexes W db colName;
  console_log [VString (nl +:+ "Indexes on '" +:+ colName +:+ "':");
               VStrings indexes];;
  showIndexDefinitions W db colName;;
  client_close W client.

(** [main().catch(console.error)] *)
Definition script (W : World) : M unit :=
  try_catch (main W) (λ err, console_error [VError err]).

End Part000.

(** scripts/create-indexes.ts *)
Module CreateIndexes.

Definition main (W : World) : M unit :=
  uri ← or_else (env W !! "MONGODB_URI") (prompt W "Enter your MongoDB URI: ");
  dbName ← or_else (env W !! "MONGODB_DB") (prompt W "Enter database name: ");
  colName ← prompt W "Enter collection name: ";
  client ← new_MongoClient W uri;
  client_connect W client;;
  db ← client_db W client dbName;
  indexes ← listExistingIndexes W db colName;
  console_log [VString (nl +:+ "Indexes on '" +:+ colName +:+ "':");
               VStrings indexes];;
  client_close W client.

Definition script (W : World) : M unit :=
  try_catch (main W) (λ err, console_error [VError err]).

End CreateIndexes.

(** ** Observations on a trace *)

Definition is_create (ev : event) : bool :=
  match ev with ECreateSearchIndex _ _ => true | _ => false end.

Definition is_update (ev : event) : bool :=
  match ev with EUpdateSearchIndex _ _ _ => true | _ => false end.

Definition is_close (ev : event) : bool :=
  match ev with EClose _ => true | _ => false end.

Definition is_connect (ev : event) : bool :=
  match ev with EConnect _ => true | _ => false end.

Definition is_console (ev : event) : bool :=
  match ev with
  | EConsoleLog _ | EConsoleError _ | EConsoleDir _ => true
  | _ => false
  end.

(** The one call of the embedding client that goes to the network. *)
Definition is_network_call (ev : event) : bool :=
  match ev with EEmbeddingsCreate _ _ => true | _ => false end.

(** ** Sample worlds *)

(** [path.join] on segments that are neither empty, [.] nor [..] and hold no
    slash of their own: the segments with a slash between them. *)
Fixpoint join_segments (parts : list string) : string :=
  match parts with
  | [] => "."
  | [p] => p
  | p :: rest => p +:+ "/" +:+ join_segments rest
  end.

(** [JSON.parse] on the two texts the sample files hold. *)
Definition parse_sample (text : string) : json + string :=
  if String.eqb text "{}" then inl (JObject [])
  else if String.eqb text "{" then inr "Unexpected end of JSON input"
  else inr "Unexpected token".

(** The driver refuses a database name with a dot in it. *)
Fixpoint has_dot (s : string) : bool :=
  match s with
  | EmptyString => false
  | String a rest => Ascii.eqb a "." || has_dot rest
  end.

Definition env0 : gmap string string :=
  {[ "MONGODB_URI" := "mongodb://localhost:27017";
     "MONGODB_DB" := "shop";
     "OPENAI_API_KEY" := "sk-test";
     "OPENAI_BASE_URL" := "https://example.invalid/openai/deployments/emb";
     "OPENAI_API_VERSION" := "2024-10-21";
     "OPENAI_EMBEDDING_MODEL" := "emb" ]}.

Definition one_embedding : CreateEmbeddingResponse :=
  {| data := [ {| embedding := [0.25%float; (-1)%float; 3%float];
                  emb_index := 0 |} ];
     res_model := "emb" |}.

(** A deployment: its environment and arguments, the line each question
    receives in turn (a question past the last line receives none), what the
    server answers to a listing and what the embedding endpoint answers.
    The SDK's constructor insists on an API key, the driver on a connection
    string with its scheme and on a database name without a dot; every other
    call succeeds. *)
Definition sample (e : gmap string string) (args lines : list string)
    (listing : error + list SearchIndexDoc)
    (answer : error + CreateEmbeddingResponse) : World :=
  {| env := e;
     argv := args;
     cwd := "/app";
     path_join := join_segments;
     fs := {[ "/app/config/indexes/products.vector.json" := "{}";
              "/app/config/indexes/a.json" := "{";
              "/app/config/indexes/b.json" := "{" ]};
     json_parse := parse_sample;
     stdin := λ n, lines !! n;
     mongo_new := λ _ uri,
       if String.prefix "mongodb://" uri || String.prefix "mongodb+srv://" uri
       then None
       else Some (MongoError "Invalid scheme, expected mongodb:// or mongodb+srv://");
     mongo_connect := λ _ _, None;
     mongo_db := λ _ _ dbName,
       if has_dot dbName
       then Some (MongoError "Database names cannot contain the character '.'")
       else None;
     mongo_collection := λ _ _ _, None;
     mongo_listSearchIndexes := λ _ _, None;
     toArray_answer := λ _ _, listing;
     mongo_createSearchIndex := λ _ _ _, None;
     mongo_updateSearchIndex := λ _ _ _ _, None;
     mongo_close := λ _ _, None;
     openai_new := λ _ opts,
       match apiKey opts with
       | None =>
           Some (OpenAIError
                   "The OPENAI_API_KEY environment variable is missing or empty")
       | Some _ => None
       end;
     embeddings_answer := λ _ _ _, answer |}.

(** Both variables set, the operator types [products], the collection has
    the index [vector]. *)
Definition healthy : World :=
  sample env0 [] ["products"]
    (inr [ {| idx_name := "vector"; idx_rest := JNull |} ]) (inr one_embedding).

(** The collection has no search index yet. *)
Definition fresh : World :=
  sample env0 [] ["products"] (inr []) (inr one_embedding).

(** The same, started with [--dry-run]. *)
Definition dry_run : World :=
  sample env0 ["--dry-run"] ["products"] (inr []) (inr one_embedding).

(** The server does not know [$listSearchIndexes]. *)
Definition no_listing : World :=
  sample env0 [] ["products"]
    (inl (MongoError "$listSearchIndexes is not supported"))
    (inr one_embedding).

(** The database name has a dot in it. *)
Definition dotted_db : World :=
  sample (<["MONGODB_DB" := "my.db"]> env0) [] ["products"] (inr [])
    (inr one_embedding).

(** Both MongoDB variables are set, to the empty string; the operator
    answers each question when it is asked. *)
Definition blank_env : World :=
  sample (<["MONGODB_URI" := ""]> (<["MONGODB_DB" := ""]> env0)) []
    ["  mongodb://localhost:27017 "; "shop"; "products"] (inr [])
    (inr one_embedding).

(** No deployment name in the environment. *)
Definition no_model : World :=
  sample (delete "OPENAI_EMBEDDING_MODEL" env0) [] [] (inr [])
    (inr one_embedding).

(** No API key in the environment. *)
Definition no_api_key : World :=
  sample (delete "OPENAI_API_KEY" env0) [] [] (inr []) (inr one_embedding).

(** The endpoint answers with no result. *)
Definition empty_data : World :=
  sample env0 [] [] (inr []) (inr {| data := []; res_model := "emb" |}).

Definition with_argv (a : list string) (W : World) : World :=
  {| env := env W; argv := a; cwd := cwd W; path_join := path_join W;
     fs := fs W; json_parse := json_parse W; stdin := stdin W;
     mongo_new := mongo_new W; mongo_connect := mongo_connect W;
     mongo_db := mongo_db W; mongo_collection := mongo_collection W;
     mongo_listSearchIndexes := mongo_listSearchIndexes W;
     toArray_answer := toArray_answer W;
     mongo_createSearchIndex := mongo_createSearchIndex W;
     mongo_updateSearchIndex := mongo_updateSearchIndex W;
     mongo_close := mongo_close W; openai_new := openai_new W;
     embeddings_answer := embeddings_answer W |}.

Definition shop : Db := DbHandle "shop".
Definition products_vector : IndexSpec :=
  {| col := "products"; name := "vector"; file := "products.vector.json" |}.

(** ** What a caller may expect *)

(** The four variables the embedding client reads. *)
Definition required_env : list string :=
  [ "OPENAI_API_KEY"; "OPENAI_BASE_URL"; "OPENAI_API_VERSION";
    "OPENAI_EMBEDDING_MODEL" ].

Definition required_absent (W : World) : Prop :=
  ∃ k, k ∈ required_env ∧ env W !! k = None.

(** A run that throws without having gone to the network. *)
Definition fails_before_network {A} (r : result A * list event) : Prop :=
  (∃ e, outcome r = Throw e) ∧ List.filter is_network_call (emitted r) = [].

(** [silent P m]: whatever the history, [m] emits no event that [P] picks. *)
Definition silent (P : event -> bool) {A} (m : M A) : Prop :=
  ∀ h, Forall (λ ev, P ev = false) (emitted (m h)).

(** A program that, when it throws, has not called [close()], unless
    [close()] was its last call (and then the one that threw). *)
Definition closes_only_at_the_end {A} (m : M A) : Prop :=
  ∀ h e,
    outcome (m h) = Throw e ->
    List.filter is_close (emitted (m h)) = []
    ∨ ∃ c, last (emitted (m h)) = Some (EClose c).

(** Every error [loadDefinition] throws tells which file it was loading. *)
Definition load_errors_name_the_file : Prop :=
  ∃ path_of : error -> string,
    ∀ (W : World) (file : string) (h : list event) (e : error),
      outcome (loadDefinition W file h) = Throw e ->
      path_of e = definition_path W file.

(** ** Further observations and worlds *)

(** A call that changes nothing on the server and reads no file: what is
    left when creating, updating, reading a definition and the embedding
    client are taken away. *)
Definition is_write_or_load (ev : event) : bool :=
  match ev with
  | ECreateSearchIndex _ _ | EUpdateSearchIndex _ _ _ | EReadFileSync _
  | ENewOpenAI _ | EEmbeddingsCreate _ _ => true
  | _ => false
  end.


(** The three console calls [showIndexDefinitions] makes for one index. *)
Definition index_report (idx : SearchIndexDoc) : list event :=
  [ EConsoleLog [VString ("🟢 Index name: " +:+ idx_name idx)];
    EConsoleDir idx;
    EConsoleLog [VString ("──────────────────────────────" +:+ nl)] ].

(** What [showIndexDefinitions] prints for the documents of a collection. *)
Definition definitions_report (colName : string) (docs : list SearchIndexDoc)
  : list event :=
  match docs with
  | [] =>
      [EConsoleLog [VString ("No indexes found for collection " +:+ colName)]]
  | _ :: _ =>
      EConsoleLog
        [VString (nl +:+ "✔ Index definitions for '" +:+ colName +:+ "':"
                  +:+ nl)]
      :: flat_map index_report docs
  end.

(** The three driver calls of one listing. *)
Definition listing_calls (dbName colName : string) : list event :=
  [ ECollection (DbHandle dbName) colName;
    EListSearchIndexes (CollectionHandle dbName colName);
    EToArray (CursorHandle dbName colName) ].

(** What [main] settles in its first three statements: the questions it
    asks, and the connection string, database and collection it goes on
    with.  A variable that is set and not empty is taken as it is; a typed
    line is trimmed. *)
Definition uri_asked (W : World) : list event :=
  match truthy (env W !! "MONGODB_URI") with
  | Some _ => []
  | None => [EQuestion "Enter your MongoDB URI: "]
  end.

Definition db_asked (W : World) : list event :=
  match truthy (env W !! "MONGODB_DB") with
  | Some _ => []
  | None => [EQuestion "Enter database name: "]
  end.

Definition questions (W : World) : list event :=
  uri_asked W ++ db_asked W ++ [EQuestion "Enter collection name: "].

(** What the [n]-th question resolves with, when it is answered. *)
Definition answer_to (W : World) (n : nat) : string :=
  match stdin W n with Some answer => trim answer | None => "" end.

Definition chosen_uri (W : World) (h : list event) : string :=
  match truthy (env W !! "MONGODB_URI") with
  | Some uri => uri
  | None => answer_to W (questions_asked h)
  end.

Definition chosen_db (W : World) (h : list event) : string :=
  match truthy (env W !! "MONGODB_DB") with
  | Some dbName => dbName
  | None => answer_to W (questions_asked h + length (uri_asked W))
  end.

Definition chosen_col (W : World) (h : list event) : string :=
  answer_to W (questions_asked h + length (uri_asked W)
               + length (db_asked W)).

(** Every question [main] has to ask receives an answer. *)
Definition answered_all (W : World) (h : list event) : Prop :=
  ∀ i, i < length (questions W) -> is_Some (stdin W (questions_asked h + i)).

Definition answered_allb (W : World) (h : list event) : bool :=
  forallb (λ i, match stdin W (questions_asked h + i) with
                | Some _ => true
                | None => false
                end)
    (seq 0 (length (questions W))).

(** The questions [main] gets to ask: each one waits for the answer to the
    one before it. *)
Definition questions_reached (W : World) (h : list event) : list event :=
  match uri_asked W, stdin W (questions_asked h) with
  | _ :: _, None => uri_asked W
  | _, _ =>
      uri_asked W
      ++ match db_asked W,
               stdin W (questions_asked h + length (uri_asked W)) with
         | _ :: _, None => db_asked W
         | _, _ => db_asked W ++ [EQuestion "Enter collection name: "]
         end
  end.

(** Every driver call but the listing succeeds, for the client, database and
    collection at hand and whatever was called before. *)
Definition driver_up (W : World) (uri dbName colName : string) : Prop :=
  (∀ h, mongo_new W h uri = None)
  ∧ (∀ h, mongo_connect W h (ClientHandle uri) = None)
  ∧ (∀ h, mongo_db W h (ClientHandle uri) dbName = None)
  ∧ (∀ h, mongo_collection W h (DbHandle dbName) colName = None)
  ∧ (∀ h, mongo_close W h (ClientHandle uri) = None).

(** A typed line as [trim] sees it: blanks, then a text that begins and
    ends with a visible ASCII character (or is empty), then blanks. *)
Definition visible (a : ascii) : Prop := nat_of_ascii a < 128 ∧ ws1 a = false.

Definition solid (core : list ascii) : Prop :=
  core = []
  ∨ ∃ a z, head core = Some a ∧ last core = Some z ∧ visible a ∧ visible z.

Definition blanks (l : list ascii) : Prop := Forall (λ a, ws1 a = true) l.

Definition with_collection (answer : option error) (W : World) : World :=
  {| env := env W; argv := argv W; cwd := cwd W; path_join := path_join W;
     fs := fs W; json_parse := json_parse W; stdin := stdin W;
     mongo_new := mongo_new W; mongo_connect := mongo_connect W;
     mongo_db := mongo_db W; mongo_collection := λ _ _ _, answer;
     mongo_listSearchIndexes := mongo_listSearchIndexes W;
     toArray_answer := toArray_answer W;
     mongo_createSearchIndex := mongo_createSearchIndex W;
     mongo_updateSearchIndex := mongo_updateSearchIndex W;
     mongo_close := mongo_close W; openai_new := openai_new W;
     embeddings_answer := embeddings_answer W |}.

Definition with_mutations (answer : option error) (W : World) : World :=
  {| env := env W; argv := argv W; cwd := cwd W; path_join := path_join W;
     fs := fs W; json_parse := json_parse W; stdin := stdin W;
     mongo_new := mongo_new W; mongo_connect := mongo_connect W;
     mongo_db := mongo_db W; mongo_collection := mongo_collection W;
     mongo_listSearchIndexes := mongo_listSearchIndexes W;
     toArray_answer := toArray_answer W;
     mongo_createSearchIndex := λ _ _ _, answer;
     mongo_updateSearchIndex := λ _ _ _ _, answer;
     mongo_close := mongo_close W; openai_new := openai_new W;
     embeddings_answer := embeddings_answer W |}.

(** The driver refuses the collection name. *)
Definition no_collection : World :=
  with_collection (Some (MongoError "collection names cannot be empty"))
    healthy.

(** The server refuses to create or update a search index. *)
Definition refusing : World :=
  with_mutations (Some (MongoError "not authorized")) healthy.

(** The embedding endpoint rejects the request. *)
Definition endpoint_down : World :=
  sample env0 [] [] (inr []) (inl (OpenAIError "401 Unauthorized")).

(** The connection string is asked for and the question never gets an
    answer. *)
Definition unanswered : World :=
  sample (delete "MONGODB_URI" env0) [] [] (inr []) (inr one_embedding).

(** As [blank_env], with the answers piped in together: the first question
    receives its line, the later ones receive none. *)
Definition piped : World :=
  sample (<["MONGODB_URI" := ""]> (<["MONGODB_DB" := ""]> env0)) []
    ["  mongodb://localhost:27017 "] (inr []) (inr one_embedding).

(** The operator answers the first question with blanks only. *)
Definition blank_answer : World :=
  sample (delete "MONGODB_URI" env0) [] ["   "; "products"] (inr [])
    (inr one_embedding).

(** ** Running a program *)

Lemma run_bind {A B} (m : M A) (k : A -> M B) (h : list event) :
  (m ≫= k) h =
  match m h with
  | (Ok a, t) => let (r, t') := k a (h ++ t) in (r, t ++ t')
  | (Throw e, t) => (Throw e, t)
  | (Pending, t) => (Pending, t)
  end.
Proof. reflexivity. Qed.

Lemma run_bind_ok {A B} (m : M A) (k : A -> M B) h a t :
  m h = (Ok a, t) ->
  (m ≫= k) h = (outcome (k a (h ++ t)), t ++ emitted (k a (h ++ t))).
Proof.
  intros Hm. rewrite run_bind, Hm. now destruct (k a (h ++ t)).
Qed.

(** Unfold the monad at the head of the goal and compute. *)
Ltac run :=
  unfold outcome, emitted, try_catch, mbind, M_bind, bind, mret, M_ret, ret,
    throw, call, emit, unit_answer, handle_answer in *;
  cbn in *.

(** The two awaited network calls settle. *)
Lemma mongo_toArray_settles (W : World) h c : mongo_toArray W h c ≠ Pending.
Proof. unfold mongo_toArray. now destruct (toArray_answer W h c). Qed.

Lemma openai_embeddings_create_settles (W : World) h c params :
  openai_embeddings_create W h c params ≠ Pending.
Proof.
  unfold openai_embeddings_create.
  now destruct (embeddings_answer W h c params).
Qed.

(** Case analysis on how such a call settles. *)
Ltac toArray_cases :=
  match goal with
  | |- context [mongo_toArray ?W ?h ?c] =>
      let E := fresh "E" in
      destruct (mongo_toArray W h c) eqn:E;
      [ | | exfalso; exact (mongo_toArray_settles W h c E)]; clear E
  end.

Ltac create_cases :=
  match goal with
  | |- context [openai_embeddings_create ?W ?h ?c ?p] =>
      let E := fresh "E" in
      destruct (openai_embeddings_create W h c p) eqn:E;
      [ | | exfalso; exact (openai_embeddings_create_settles W h c p E)];
      clear E
  end.

Ltac programs :=
  unfold ensureIndex, listExistingIndexes, showIndexDefinitions,
    loadDefinition, createIndex, updateIndex, prompt, or_else,
    getEmbeddingFromAzureSDK, readFileSync, JSON_parse, console_log,
    console_error, console_dir, new_MongoClient, client_connect, client_db,
    client_close, db_collection, col_listSearchIndexes, cursor_toArray,
    col_createSearchIndex, col_updateSearchIndex, new_OpenAI,
    embeddings_create, await_value in *.

(** ** Programs that never make a call of some kind *)

Section Silent.
Context (P : event -> bool).

Lemma silent_ret {A} (a : A) : silent P (mret a : M A).
Proof. intros h. constructor. Qed.

Lemma silent_throw {A} (e : error) : silent P (throw e : M A).
Proof. intros h. constructor. Qed.

Lemma silent_call {A} ev (answer : list event -> result A) :
  P ev = false -> silent P (call ev answer).
Proof. intros Hev h. repeat constructor. exact Hev. Qed.

Lemma silent_emit ev : P ev = false -> silent P (emit ev).
Proof. intros Hev h. repeat constructor. exact Hev. Qed.

Lemma silent_bind {A B} (m : M A) (k : A -> M B) :
  silent P m -> (∀ a, silent P (k a)) -> silent P (m ≫= k).
Proof.
  intros Hm Hk h. rewrite run_bind.
  specialize (Hm h). unfold emitted in *.
  destruct (m h) as [[a|e|] t]; cbn in *; [|exact Hm..].
  specialize (Hk a (h ++ t)). unfold emitted in Hk.
  destruct (k a (h ++ t)) as [r t']; cbn in *.
  apply Forall_app; split; assumption.
Qed.

Lemma silent_try_catch {A} (m : M A) (handler : error -> M A) :
  silent P m -> (∀ e, silent P (handler e)) -> silent P (try_catch m handler).
Proof.
  intros Hm Hk h. unfold try_catch.
  specialize (Hm h). unfold emitted in *.
  destruct (m h) as [[a|e|] t]; cbn in *; [exact Hm| |exact Hm].
  specialize (Hk e (h ++ t)). unfold emitted in Hk.
  destruct (handler e (h ++ t)) as [r t']; cbn in *.
  apply Forall_app; split; assumption.
Qed.

Lemma silent_forEach {A} (arr : list A) (f : A -> M unit) :
  (∀ x, silent P (f x)) -> silent P (forEach arr f).
Proof.
  intros Hf. induction arr as [|x rest IH]; cbn.
  - apply silent_ret.
  - apply silent_bind; [apply Hf | intros _; exact IH].
Qed.

Lemma silent_filter {A} (m : M A) h :
  silent P m -> List.filter P (emitted (m h)) = [].
Proof.
  intros Hm. specialize (Hm h).
  induction Hm as [|ev t Hev _ IH]; cbn; [reflexivity|].
  now rewrite Hev.
Qed.
End Silent.

Ltac silence :=
  repeat first
    [ progress intros
    | apply silent_bind
    | apply silent_try_catch
    | apply silent_forEach
    | apply silent_ret
    | apply silent_throw
    | apply silent_call; reflexivity
    | apply silent_emit; reflexivity
    | match goal with
      | |- silent _ (if ?b then _ else _) => destruct b
      | |- silent _ (match ?x with _ => _ end) => destruct x
      end ].

Lemma main_ignores_argv (W : World) (args : list string) (h : list event) :
  Part000.script (with_argv args W) h = Part000.script W h
  ∧ CreateIndexes.script (with_argv args W) h = CreateIndexes.script W h.
Proof. split; reflexivity. Qed.

(** When the collection handle is obtained, [listExistingIndexes] returns:
    nothing thrown inside its [try] leaves it. *)
Lemma listExistingIndexes_returns (W : World) (db : Db) (colName : string)
    (h : list event) :
  mongo_collection W h db colName = None ->
  ∃ names, outcome (listExistingIndexes W db colName h) = Ok names.
Proof.
  intros Hcol. destruct db as [dbName].
  programs. run. rewrite Hcol.
  destruct (mongo_listSearchIndexes W _ _); cbn; [eauto|].
  toArray_cases; cbn; eauto.
Qed.

(** [ensureIndex] creates no index and updates none, whatever the world. *)
Lemma ensureIndex_mutates_nothing (W : World) (db : Db) (spec : IndexSpec) :
  silent (λ ev, is_create ev || is_update ev) (ensureIndex W db spec).
Proof.
  programs. silence.
Qed.

(** ** The reconciler *)

(** C1: for a spec whose name is absent from the existing names,
    [ensureIndex] is to issue exactly one create call.  It issues none: on a
    collection without indexes the spec [products/vector] is found absent, its
    definition is loaded, the collection handle is fetched, and the function
    returns. *)
Theorem ensureIndex_absent_issues_no_create :
  outcome (listExistingIndexes fresh shop (col products_vector) []) = Ok []
  ∧ includes [] (name products_vector) = false
  ∧ ensureIndex fresh shop products_vector [] =
      (Ok tt,
       [ ECollection shop "products";
         EListSearchIndexes (CollectionHandle "shop" "products");
         EToArray (CursorHandle "shop" "products");
         EReadFileSync "/app/config/indexes/products.vector.json";
         ECollection shop "products" ])
  ∧ List.filter is_create
      (emitted (ensureIndex fresh shop products_vector [])) = [].
Proof. repeat split; vm_compute; reflexivity. Qed.

(** C2: for a spec whose name is present, [ensureIndex] is to issue an update
    call with the name and the loaded definition.  It issues none: the branch
    taken only awaits the collection handle. *)
Theorem ensureIndex_present_issues_no_update :
  outcome (listExistingIndexes healthy shop (col products_vector) [])
    = Ok ["vector"]
  ∧ includes ["vector"] (name products_vector) = true
  ∧ outcome (loadDefinition healthy (file products_vector) []) = Ok (JObject [])
  ∧ ensureIndex healthy shop products_vector [] =
      (Ok tt,
       [ ECollection shop "products";
         EListSearchIndexes (CollectionHandle "shop" "products");
         EToArray (CursorHandle "shop" "products");
         EReadFileSync "/app/config/indexes/products.vector.json";
         ECollection shop "products" ])
  ∧ List.filter is_update
      (emitted (ensureIndex healthy shop products_vector [])) = [].
Proof. repeat split; vm_compute; reflexivity. Qed.

(** C3: if listing the search indexes throws, be it [listSearchIndexes()]
    itself or the cursor's [toArray()], [listExistingIndexes] returns the
    empty list, its last act being the [console.error] line that carries the
    error; nothing is thrown to the caller. *)
Theorem listExistingIndexes_swallows_listing_failure
    (W : World) (dbName colName : string) (h : list event) (err : error) :
  mongo_collection W h (DbHandle dbName) colName = None ->
  mongo_listSearchIndexes W (h ++ [ECollection (DbHandle dbName) colName])
    (CollectionHandle dbName colName) = Some err
  ∨ (mongo_listSearchIndexes W (h ++ [ECollection (DbHandle dbName) colName])
       (CollectionHandle dbName colName) = None
     ∧ mongo_toArray W
         ((h ++ [ECollection (DbHandle dbName) colName])
          ++ [EListSearchIndexes (CollectionHandle dbName colName)])
         (CursorHandle dbName colName) = Throw err) ->
  outcome (listExistingIndexes W (DbHandle dbName) colName h) = Ok []
  ∧ last (emitted (listExistingIndexes W (DbHandle dbName) colName h))
    = Some (EConsoleError
              [VString ("Failed to list indexes for " +:+ colName +:+ ":");
               VError err]).
Proof.
  intros Hcol Hfail.
  programs. run. rewrite Hcol.
  destruct Hfail as [Hlist | [Hlist Harr]]; rewrite Hlist; cbn.
  - split; reflexivity.
  - rewrite Harr. cbn. split; reflexivity.
Qed.

Lemma listExistingIndexes_swallows_listing_failure_witness :
  outcome (listExistingIndexes no_listing shop "products" []) = Ok []
  ∧ last (emitted (listExistingIndexes no_listing shop "products" []))
    = Some (EConsoleError
              [VString "Failed to list indexes for products:";
               VError (MongoError "$listSearchIndexes is not supported")]).
Proof.
  apply (listExistingIndexes_swallows_listing_failure
           no_listing "shop" "products" []
           (MongoError "$listSearchIndexes is not supported")).
  - reflexivity.
  - right. split; reflexivity.
Defined.

(** After a failed listing the shorter script carries on: it prints the empty
    list and closes the client. *)
Example listing_failure_run_continues :
  CreateIndexes.script no_listing [] =
    (Ok tt,
     [ EQuestion "Enter collection name: ";
       ENewMongoClient "mongodb://localhost:27017";
       EConnect (ClientHandle "mongodb://localhost:27017");
       EDb (ClientHandle "mongodb://localhost:27017") "shop";
       ECollection shop "products";
       EListSearchIndexes (CollectionHandle "shop" "products");
       EToArray (CursorHandle "shop" "products");
       EConsoleError
         [VString "Failed to list indexes for products:";
          VError (MongoError "$listSearchIndexes is not supported")];
       EConsoleLog [VString (nl +:+ "Indexes on 'products':"); VStrings []];
       EClose (ClientHandle "mongodb://localhost:27017") ]).
Proof. vm_compute. reflexivity. Qed.

(** C4: with [--dry-run] the script is to print the action it would take for
    each spec.  It never reads its arguments: the run is the one without the
    flag, and the console shows the listing only. *)
Theorem dry_run_flag_is_ignored :
  argv dry_run = ["--dry-run"]
  ∧ Part000.script dry_run [] = Part000.script fresh []
  ∧ List.filter is_console (emitted (Part000.script dry_run []))
    = [ EConsoleLog [VString (nl +:+ "Indexes on 'products':"); VStrings []];
        EConsoleLog [VString "No indexes found for collection products"] ]
  ∧ List.filter (λ ev, is_create ev || is_update ev)
      (emitted (Part000.script dry_run [])) = [].
Proof. repeat split; vm_compute; reflexivity. Qed.

(** C7, as stated, fails: two definition files with the same broken contents
    make [loadDefinition] throw the same [SyntaxError], so the error does not
    tell the files apart. *)
Lemma syntax_error_does_not_name_the_file : ¬ load_errors_name_the_file.
Proof.
  intros [path_of Hpath].
  pose proof (Hpath healthy "a.json" []
                (SyntaxError "Unexpected end of JSON input") eq_refl) as Ha.
  pose proof (Hpath healthy "b.json" []
                (SyntaxError "Unexpected end of JSON input") eq_refl) as Hb.
  rewrite Ha in Hb. vm_compute in Hb. discriminate Hb.
Qed.

(** C7, amended: a missing definition file makes [loadDefinition] throw the
    ENOENT error of [readFileSync], which carries the joined path; contents
    that are not valid JSON make it throw the [SyntaxError] of [JSON.parse]
    unchanged, which depends on the contents only.  Either way the error
    leaves [loadDefinition] after the one read, and nothing stands in for the
    definition. *)
Theorem loadDefinition_errors_propagate
    (W : World) (file : string) (h : list event) :
  (fs W !! definition_path W file = None ->
   loadDefinition W file h
   = (Throw (SystemError "ENOENT" "open" (definition_path W file)),
      [EReadFileSync (definition_path W file)]))
  ∧ (∀ text message,
       fs W !! definition_path W file = Some text ->
       json_parse W text = inr message ->
       loadDefinition W file h
       = (Throw (SyntaxError message),
          [EReadFileSync (definition_path W file)])).
Proof.
  unfold definition_path. split.
  - intros Hmiss. programs. run. now rewrite Hmiss.
  - intros text message Hread Hparse. programs. run.
    rewrite Hread. cbn. rewrite Hparse. reflexivity.
Qed.

Lemma loadDefinition_errors_propagate_witness :
  loadDefinition healthy "missing.json" []
  = (Throw (SystemError "ENOENT" "open" "/app/config/indexes/missing.json"),
     [EReadFileSync "/app/config/indexes/missing.json"])
  ∧ loadDefinition healthy "a.json" []
    = (Throw (SyntaxError "Unexpected end of JSON input"),
       [EReadFileSync "/app/config/indexes/a.json"]).
Proof.
  split.
  - apply (proj1 (loadDefinition_errors_propagate healthy "missing.json" [])).
    vm_compute. reflexivity.
  - apply (proj2 (loadDefinition_errors_propagate healthy "a.json" []) "{").
    + vm_compute. reflexivity.
    + reflexivity.
Defined.

(** A bad definition stops [ensureIndex] as well. *)
Example ensureIndex_bad_definition :
  ensureIndex healthy shop
    {| col := "products"; name := "vector"; file := "a.json" |} []
  = (Throw (SyntaxError "Unexpected end of JSON input"),
     [ ECollection shop "products";
       EListSearchIndexes (CollectionHandle "shop" "products");
       EToArray (CursorHandle "shop" "products");
       EReadFileSync "/app/config/indexes/a.json" ]).
Proof. vm_compute. reflexivity. Qed.

(** ** The embedding client *)

(** C5: when the SDK hands out a client and the endpoint answers, the function
    returns the [embedding] of the first element of the answer's [data], after
    one request and no other call. *)
Theorem getEmbedding_returns_first_embedding
    (W : World) (text : string) (h : list event)
    (res : CreateEmbeddingResponse) (first : Embedding) :
  openai_new W h (env_options W) = None ->
  openai_embeddings_create W (h ++ [ENewOpenAI (env_options W)])
    (OpenAIHandle (env_options W)) (env_params W text) = Ok res ->
  data res !! 0 = Some first ->
  getEmbeddingFromAzureSDK W text h
  = (Ok (embedding first),
     [ ENewOpenAI (env_options W);
       EEmbeddingsCreate (OpenAIHandle (env_options W)) (env_params W text) ]).
Proof.
  intros Hnew Hcreate Hfirst.
  unfold env_options, env_params in *. programs. run.
  rewrite Hnew. cbn. rewrite Hcreate. cbn.
  destruct (data res) as [|d rest]; cbn in *; [discriminate|].
  now inversion Hfirst.
Qed.

Lemma getEmbedding_returns_first_embedding_witness :
  outcome (getEmbeddingFromAzureSDK healthy "hello" [])
  = Ok [0.25%float; (-1)%float; 3%float].
Proof.
  change (outcome (getEmbeddingFromAzureSDK healthy "hello" [])
          = Ok (embedding {| embedding := [0.25%float; (-1)%float; 3%float];
                             emb_index := 0 |})).
  rewrite (getEmbedding_returns_first_embedding healthy "hello" []
             one_embedding
             {| embedding := [0.25%float; (-1)%float; 3%float];
                emb_index := 0 |}).
  - reflexivity.
  - vm_compute. reflexivity.
  - reflexivity.
  - reflexivity.
Defined.

(** C6, as stated, fails: with the deployment name missing from the
    environment the client is built and the request goes out, its [model]
    undefined. *)
Lemma missing_model_reaches_the_network :
  required_absent no_model
  ∧ List.filter is_network_call
      (emitted (getEmbeddingFromAzureSDK no_model "hello" []))
    = [ EEmbeddingsCreate (OpenAIHandle (env_options no_model))
          {| model := None; input := "hello" |} ]
  ∧ ¬ fails_before_network (getEmbeddingFromAzureSDK no_model "hello" []).
Proof.
  split; [|split].
  - exists "OPENAI_EMBEDDING_MODEL". split.
    + unfold required_env. set_solver.
    + vm_compute. reflexivity.
  - vm_compute. reflexivity.
  - intros [_ Hnone]. vm_compute in Hnone. discriminate Hnone.
Qed.

(** C6, amended: the function checks none of the four variables itself.  It
    hands them, undefined or not, to the SDK's constructor and to the
    request, putting no default in their place; it fails before the network
    is reached when the constructor throws, and only then: once the
    constructor returns, the request goes out. *)
Theorem getEmbedding_passes_environment_on
    (W : World) (text : string) (h : list event) :
  head (emitted (getEmbeddingFromAzureSDK W text h))
  = Some (ENewOpenAI (env_options W))
  ∧ (∀ e, openai_new W h (env_options W) = Some e ->
          getEmbeddingFromAzureSDK W text h
          = (Throw e, [ENewOpenAI (env_options W)]))
  ∧ (openai_new W h (env_options W) = None ->
     emitted (getEmbeddingFromAzureSDK W text h)
     = [ ENewOpenAI (env_options W);
         EEmbeddingsCreate (OpenAIHandle (env_options W))
           (env_params W text) ]).
Proof.
  unfold env_options, env_params. programs. run.
  destruct (openai_new W h _) as [e|]; cbn.
  - split; [reflexivity|]. split; [|discriminate].
    intros e' He'. now inversion He'.
  - destruct (openai_embeddings_create W _ _ _) as [res|e|]; cbn;
      [destruct (data res) as [|first rest]; cbn| |];
      (split; [reflexivity|]; split; [discriminate | intros _; reflexivity]).
Qed.

Lemma getEmbedding_passes_environment_on_witness :
  getEmbeddingFromAzureSDK no_api_key "hello" []
  = (Throw (OpenAIError
              "The OPENAI_API_KEY environment variable is missing or empty"),
     [ENewOpenAI (env_options no_api_key)])
  ∧ emitted (getEmbeddingFromAzureSDK no_model "hello" [])
    = [ ENewOpenAI (env_options no_model);
        EEmbeddingsCreate (OpenAIHandle (env_options no_model))
          (env_params no_model "hello") ].
Proof.
  split.
  - apply (getEmbedding_passes_environment_on no_api_key "hello" []).
    vm_compute. reflexivity.
  - apply (getEmbedding_passes_environment_on no_model "hello" []).
    vm_compute. reflexivity.
Defined.

(** C10: an answer with an empty [data] makes the function throw the
    [TypeError] of reading [embedding] off [undefined]; and whenever it
    returns a vector, the answer had a first element and the vector is that
    element's. *)
Theorem getEmbedding_empty_data_throws
    (W : World) (text : string) (h : list event) :
  (∀ res,
     openai_new W h (env_options W) = None ->
     openai_embeddings_create W (h ++ [ENewOpenAI (env_options W)])
       (OpenAIHandle (env_options W)) (env_params W text) = Ok res ->
     data res = [] ->
     outcome (getEmbeddingFromAzureSDK W text h)
     = Throw (TypeError
                "Cannot read properties of undefined (reading 'embedding')"))
  ∧ (∀ v,
       outcome (getEmbeddingFromAzureSDK W text h) = Ok v ->
       ∃ res first rest,
         openai_embeddings_create W (h ++ [ENewOpenAI (env_options W)])
           (OpenAIHandle (env_options W)) (env_params W text) = Ok res
         ∧ data res = first :: rest
         ∧ v = embedding first).
Proof.
  unfold env_options, env_params. split.
  - intros res Hnew Hcreate Hdata. programs. run.
    rewrite Hnew. cbn. rewrite Hcreate. cbn. now rewrite Hdata.
  - intros v. programs. run.
    destruct (openai_new W h _) as [e|]; cbn; [discriminate|].
    destruct (openai_embeddings_create W _ _ _) as [res|e|]; cbn;
      [|discriminate..].
    destruct (data res) as [|first rest] eqn:Hdata; cbn; [discriminate|].
    intros Hv. inversion Hv. now exists res, first, rest.
Qed.

Lemma getEmbedding_empty_data_throws_witness :
  outcome (getEmbeddingFromAzureSDK empty_data "hello" [])
  = Throw (TypeError
             "Cannot read properties of undefined (reading 'embedding')")
  ∧ ∃ res first rest,
      openai_embeddings_create healthy [ENewOpenAI (env_options healthy)]
        (OpenAIHandle (env_options healthy)) (env_params healthy "hello")
      = Ok res
      ∧ data res = first :: rest
      ∧ [0.25%float; (-1)%float; 3%float] = embedding first.
Proof.
  split.
  - apply (proj1 (getEmbedding_empty_data_throws empty_data "hello" [])
             {| data := []; res_model := "emb" |}).
    + vm_compute. reflexivity.
    + reflexivity.
    + reflexivity.
  - apply (proj2 (getEmbedding_empty_data_throws healthy "hello" [])).
    vm_compute. reflexivity.
Defined.

(** ** The entry point *)

Lemma emitted_bind_ok {A B} (m : M A) (k : A -> M B) h a t :
  m h = (Ok a, t) ->
  emitted ((m ≫= k) h) = t ++ emitted (k a (h ++ t)).
Proof. intros Hm. now rewrite (run_bind_ok m k h a t Hm). Qed.

Lemma questions_asked_app (h t : list event) :
  questions_asked (h ++ t) = questions_asked h + questions_asked t.
Proof. unfold questions_asked. now rewrite List.filter_app, length_app. Qed.

Lemma truthy_empty (v : option string) : v = Some "" -> truthy v = None.
Proof. now intros ->. Qed.

Lemma truthy_set (v : option string) (s : string) :
  v = Some s -> s ≠ "" -> is_Some (truthy v).
Proof. intros -> Hs. destruct s; [contradiction|]. now eexists. Qed.

Section Gather.
Context {A : Type} (W : World) (K : string -> string -> string -> M A).

(** The first three statements of [main], whatever follows them. *)
Let gather : M A :=
  uri ← or_else (env W !! "MONGODB_URI") (prompt W "Enter your MongoDB URI: ");
  dbName ← or_else (env W !! "MONGODB_DB") (prompt W "Enter database name: ");
  colName ← prompt W "Enter collection name: ";
  K uri dbName colName.

(** Either every question is answered, and what follows runs with the values
    settled, after the questions; or [main] is left pending at the first
    question without an answer. *)
Lemma gather_cases h :
  (answered_all W h
   ∧ questions_reached W h = questions W
   ∧ gather h
     = (outcome (K (chosen_uri W h) (chosen_db W h) (chosen_col W h)
                   (h ++ questions W)),
        questions W
        ++ emitted (K (chosen_uri W h) (chosen_db W h) (chosen_col W h)
                      (h ++ questions W))))
  ∨ (¬ answered_all W h ∧ gather h = (Pending, questions_reached W h)).
Proof.
  unfold gather, answered_all, questions_reached, questions, chosen_uri,
    chosen_db, chosen_col, answer_to, uri_asked, db_asked, or_else, prompt.
  destruct (truthy (env W !! "MONGODB_URI")) as [uri|];
    destruct (truthy (env W !! "MONGODB_DB")) as [dbName|];
    run; rewrite ?questions_asked_app, <- ?app_assoc, ?app_nil_r; cbn;
    rewrite ?Nat.add_0_r, <- ?Nat.add_assoc; cbn [Nat.add].
  all: repeat match goal with
       | |- context [match stdin W ?n with _ => _ end] =>
           destruct (stdin W n) eqn:?
       end; cbn.
  all: first
    [ left; split;
      [ intros i Hi; destruct i as [|[|[|i]]]; try lia;
        rewrite ?Nat.add_0_r; eauto
      | split; [reflexivity|];
        match goal with
        | |- context [K ?u ?d ?c ?h'] => now destruct (K u d c h')
        end ]
    | right; split; [|reflexivity];
      intros Hall;
      pose proof (Hall 0) as H0; pose proof (Hall 1) as H1;
      pose proof (Hall 2) as H2; rewrite ?Nat.add_0_r in *;
      match goal with
      | H : stdin W ?a = None, X : _ -> is_Some (stdin W ?a) |- _ =>
          rewrite H in X; destruct (X ltac:(lia)) as [? ?]; discriminate
      end ].
Qed.
End Gather.


Section GatherFacts.
Context {A : Type} (W : World) (K : string -> string -> string -> M A).

Let gather : M A :=
  uri ← or_else (env W !! "MONGODB_URI") (prompt W "Enter your MongoDB URI: ");
  dbName ← or_else (env W !! "MONGODB_DB") (prompt W "Enter database name: ");
  colName ← prompt W "Enter collection name: ";
  K uri dbName colName.

Lemma gather_run h :
  answered_all W h ->
  gather h
  = (outcome (K (chosen_uri W h) (chosen_db W h) (chosen_col W h)
                (h ++ questions W)),
     questions W
     ++ emitted (K (chosen_uri W h) (chosen_db W h) (chosen_col W h)
                   (h ++ questions W))).
Proof.
  intros Hall. destruct (gather_cases W K h) as [(_ & _ & Hrun) | [Hno _]].
  - exact Hrun.
  - contradiction.
Qed.

Lemma gather_stalls h :
  ¬ answered_all W h -> gather h = (Pending, questions_reached W h).
Proof.
  intros Hno. destruct (gather_cases W K h) as [(Hall & _) | [_ Hrun]].
  - contradiction.
  - exact Hrun.
Qed.

Lemma questions_reached_are_questions h :
  List.filter is_question (questions_reached W h) = questions_reached W h.
Proof.
  unfold questions_reached, uri_asked, db_asked.
  destruct (truthy (env W !! "MONGODB_URI")),
    (truthy (env W !! "MONGODB_DB")), (stdin W (questions_asked h));
    cbn; try reflexivity;
    now destruct (stdin W _).
Qed.

Lemma gather_questions h :
  (∀ uri dbName colName, silent is_question (K uri dbName colName)) ->
  List.filter is_question (emitted (gather h)) = questions_reached W h.
Proof.
  intros HK. unfold gather.
  destruct (gather_cases W K h) as [(_ & Hq & ->) | [_ ->]]; cbn [emitted snd].
  - rewrite List.filter_app, (silent_filter is_question _ _ (HK _ _ _)).
    rewrite app_nil_r, <- Hq. apply questions_reached_are_questions.
  - apply questions_reached_are_questions.
Qed.
End GatherFacts.

(** Which questions are reached, read off the variables and the answers. *)
Lemma questions_reached_set (W : World) (h : list event) :
  is_Some (truthy (env W !! "MONGODB_URI")) ->
  is_Some (truthy (env W !! "MONGODB_DB")) ->
  questions_reached W h = [EQuestion "Enter collection name: "].
Proof.
  intros [u Hu] [d Hd]. unfold questions_reached, uri_asked, db_asked.
  now rewrite Hu, Hd.
Qed.

Lemma questions_reached_uri (W : World) (h : list event) :
  truthy (env W !! "MONGODB_URI") = None ->
  In (EQuestion "Enter your MongoDB URI: ") (questions_reached W h).
Proof.
  intros Hu. unfold questions_reached, uri_asked. rewrite Hu.
  destruct (stdin W _); now left.
Qed.

Lemma questions_reached_db (W : World) (h : list event) :
  truthy (env W !! "MONGODB_DB") = None ->
  uri_asked W = [] ∨ is_Some (stdin W (questions_asked h)) ->
  In (EQuestion "Enter database name: ") (questions_reached W h).
Proof.
  intros Hd Huri. unfold questions_reached, db_asked. rewrite Hd.
  destruct Huri as [Hnone | [l Hl]].
  - rewrite Hnone.
    destruct (stdin W (questions_asked h)); cbn; destruct (stdin W _);
      cbn; now left.
  - rewrite Hl.
    destruct (uri_asked W); apply in_or_app; right;
      match goal with
      | |- context [match ?x with _ => _ end] => destruct x
      end; cbn; now left.
Qed.

Lemma questions_reached_col (W : World) (h : list event) :
  uri_asked W = [] ∨ is_Some (stdin W (questions_asked h)) ->
  db_asked W = []
  ∨ is_Some (stdin W (questions_asked h + length (uri_asked W))) ->
  In (EQuestion "Enter collection name: ") (questions_reached W h).
Proof.
  intros Huri Hdb.
  assert (Hin : In (EQuestion "Enter collection name: ")
                  (uri_asked W
                   ++ match db_asked W,
                            stdin W (questions_asked h
                                     + length (uri_asked W)) with
                      | _ :: _, None => db_asked W
                      | _, _ =>
                          db_asked W ++ [EQuestion "Enter collection name: "]
                      end)).
  { apply in_or_app. right. destruct Hdb as [-> | [l ->]].
    - now left.
    - destruct (db_asked W); apply in_or_app; right; now left. }
  unfold questions_reached.
  destruct Huri as [Hnone | [l Hl]].
  - rewrite Hnone in *. now destruct (stdin W (questions_asked h)).
  - rewrite Hl. now destruct (uri_asked W).
Qed.

(** C9, as stated, fails: with both variables empty and the answers piped in
    together, [main] asks for the connection string and for the database and
    is left pending there; the collection name is never asked for. *)
Lemma unanswered_question_stops_main :
  CreateIndexes.main piped []
  = (Pending,
     [ EQuestion "Enter your MongoDB URI: ";
       EQuestion "Enter database name: " ])
  ∧ Part000.main piped []
    = (Pending,
       [ EQuestion "Enter your MongoDB URI: ";
         EQuestion "Enter database name: " ])
  ∧ ¬ In (EQuestion "Enter collection name: ")
        (emitted (CreateIndexes.main piped []))
  ∧ ¬ In (EQuestion "Enter collection name: ")
        (emitted (Part000.main piped [])).
Proof.
  repeat split; try (vm_compute; reflexivity);
    vm_compute; intros [H | [H | []]]; discriminate H.
Qed.

(** C9, amended: [main], in either variant of the script, asks for the
    collection name once every question before it has been answered.  With
    both variables set to usable values there is no such question: the
    collection name is then always asked for, and is the one question.  A
    variable set to the empty string is asked for like a missing one: the
    connection string always, the database once the connection string has
    been answered. *)
Theorem main_asks_collection_once_answered (W : World) (h : list event) :
  (uri_asked W = [] ∨ is_Some (stdin W (questions_asked h)) ->
   db_asked W = []
   ∨ is_Some (stdin W (questions_asked h + length (uri_asked W))) ->
   In (EQuestion "Enter collection name: ") (emitted (Part000.main W h))
   ∧ In (EQuestion "Enter collection name: ")
        (emitted (CreateIndexes.main W h)))
  ∧ (∀ uri dbName,
       env W !! "MONGODB_URI" = Some uri -> uri ≠ "" ->
       env W !! "MONGODB_DB" = Some dbName -> dbName ≠ "" ->
       List.filter is_question (emitted (Part000.main W h))
       = [EQuestion "Enter collection name: "]
       ∧ List.filter is_question (emitted (CreateIndexes.main W h))
         = [EQuestion "Enter collection name: "])
  ∧ (env W !! "MONGODB_URI" = Some "" ->
     In (EQuestion "Enter your MongoDB URI: ") (emitted (Part000.main W h))
     ∧ In (EQuestion "Enter your MongoDB URI: ")
          (emitted (CreateIndexes.main W h)))
  ∧ (env W !! "MONGODB_DB" = Some "" ->
     uri_asked W = [] ∨ is_Some (stdin W (questions_asked h)) ->
     In (EQuestion "Enter database name: ") (emitted (Part000.main W h))
     ∧ In (EQuestion "Enter database name: ")
          (emitted (CreateIndexes.main W h))).
Proof.
  assert (Hlong : List.filter is_question (emitted (Part000.main W h))
                  = questions_reached W h)
    by (unfold Part000.main; apply gather_questions; programs; silence).
  assert (Hshort : List.filter is_question (emitted (CreateIndexes.main W h))
                   = questions_reached W h)
    by (unfold CreateIndexes.main; apply gather_questions; programs; silence).
  assert (Hin : ∀ q, In q (questions_reached W h) ->
                     In q (emitted (Part000.main W h))
                     ∧ In q (emitted (CreateIndexes.main W h))).
  { intros q Hq. split.
    - rewrite <- Hlong in Hq. now apply filter_In in Hq as [Hq _].
    - rewrite <- Hshort in Hq. now apply filter_In in Hq as [Hq _]. }
  split; [|split; [|split]].
  - intros Huri Hdb. now apply Hin, questions_reached_col.
  - intros uri dbName Huri Hne Hdb Hne'. rewrite Hlong, Hshort.
    split; apply questions_reached_set; eauto using truthy_set.
  - intros Hblank. now apply Hin, questions_reached_uri, truthy_empty.
  - intros Hblank Huri.
    apply Hin, questions_reached_db; [now apply truthy_empty | assumption].
Qed.

Lemma main_asks_collection_once_answered_witness :
  List.filter is_question (emitted (Part000.main healthy []))
  = [EQuestion "Enter collection name: "]
  ∧ In (EQuestion "Enter collection name: ")
       (emitted (Part000.main blank_env []))
  ∧ In (EQuestion "Enter your MongoDB URI: ")
       (emitted (CreateIndexes.main piped []))
  ∧ In (EQuestion "Enter database name: ")
       (emitted (Part000.main piped [])).
Proof.
  split; [|split; [|split]].
  - apply (proj1 (proj2 (main_asks_collection_once_answered healthy []))
             "mongodb://localhost:27017" "shop");
      first [ vm_compute; reflexivity | discriminate ].
  - apply (proj1 (main_asks_collection_once_answered blank_env [])).
    + right. vm_compute. now eexists.
    + right. vm_compute. now eexists.
  - apply (proj1 (proj2 (proj2
             (main_asks_collection_once_answered piped [])))).
    vm_compute. reflexivity.
  - apply (proj2 (proj2 (proj2
             (main_asks_collection_once_answered piped [])))).
    + vm_compute. reflexivity.
    + right. vm_compute. now eexists.
Defined.

(** What the operator types is trimmed before use. *)
Example blank_env_run :
  List.filter (λ ev, is_question ev || is_connect ev)
    (emitted (CreateIndexes.main blank_env []))
  = [ EQuestion "Enter your MongoDB URI: ";
      EQuestion "Enter database name: ";
      EQuestion "Enter collection name: ";
      EConnect (ClientHandle "mongodb://localhost:27017") ].
Proof. vm_compute. reflexivity. Qed.

(** [close()] is the last statement of [main] and nothing guards it: a throw
    from any statement before it leaves [main] without the call. *)
Lemma silent_closes_only_at_the_end {A} (m : M A) :
  silent is_close m -> closes_only_at_the_end m.
Proof. intros Hm h e _. left. now apply silent_filter. Qed.

Lemma bind_closes_only_at_the_end {A B} (m : M A) (k : A -> M B) :
  silent is_close m ->
  (∀ a, closes_only_at_the_end (k a)) ->
  closes_only_at_the_end (m ≫= k).
Proof.
  intros Hm Hk h e. rewrite run_bind.
  pose proof (silent_filter is_close m h Hm) as Hquiet.
  unfold emitted in *.
  destruct (m h) as [[a|e'|] t]; cbn in *; [|now left..].
  specialize (Hk a (h ++ t) e). unfold outcome, emitted in Hk.
  destruct (k a (h ++ t)) as [r t']; cbn in *.
  intros Hr. destruct (Hk Hr) as [Hnone | [c Hlast]].
  - left. now rewrite List.filter_app, Hquiet, Hnone.
  - right. exists c. destruct t' as [|ev t']; [discriminate|].
    now rewrite last_app_cons, <- Hlast.
Qed.

Lemma client_close_closes_only_at_the_end (W : World) (c : MongoClient) :
  closes_only_at_the_end (client_close W c).
Proof. intros h e _. right. now exists c. Qed.

Ltac close_last :=
  repeat first
    [ progress intros
    | apply client_close_closes_only_at_the_end
    | apply bind_closes_only_at_the_end; [programs; silence|]
    | match goal with
      | |- closes_only_at_the_end (match ?x with _ => _ end) => destruct x
      end ].

Lemma main_closes_only_at_the_end (W : World) :
  closes_only_at_the_end (Part000.main W)
  ∧ closes_only_at_the_end (CreateIndexes.main W).
Proof. split; unfold Part000.main, CreateIndexes.main; close_last. Qed.

(** C8: the client is to be closed on every run, error paths included.  It
    is closed on the last line of [main] only.  Where the server does not
    support the listing, [showIndexDefinitions] throws after the connection
    is made and the longer script ends without [close()]; so does the shorter
    one when the driver refuses the database name. *)
Theorem close_skipped_on_error :
  (outcome (Part000.main no_listing [])
   = Throw (MongoError "$listSearchIndexes is not supported")
   ∧ List.filter (λ ev, is_connect ev || is_close ev)
       (emitted (Part000.script no_listing []))
     = [EConnect (ClientHandle "mongodb://localhost:27017")]
   ∧ last (emitted (Part000.script no_listing []))
     = Some (EConsoleError
               [VError (MongoError "$listSearchIndexes is not supported")]))
  ∧ (outcome (CreateIndexes.main dotted_db [])
     = Throw (MongoError "Database names cannot contain the character '.'")
     ∧ List.filter (λ ev, is_connect ev || is_close ev)
         (emitted (CreateIndexes.script dotted_db []))
       = [EConnect (ClientHandle "mongodb://localhost:27017")]).
Proof. repeat split; vm_compute; reflexivity. Qed.

(** On a run without error the client is closed, last of all. *)
Example close_on_success :
  last (emitted (Part000.script healthy []))
  = Some (EClose (ClientHandle "mongodb://localhost:27017"))
  ∧ last (emitted (CreateIndexes.script healthy []))
    = Some (EClose (ClientHandle "mongodb://localhost:27017")).
Proof. split; vm_compute; reflexivity. Qed.

(** ** Listing and showing the indexes *)

(** X1: when the listing succeeds, [listExistingIndexes] returns the [name]
    of every document the server sent, in the server's order, after three
    driver calls and without a word on the console. *)
Theorem listExistingIndexes_lists_names
    (W : World) (dbName colName : string) (h : list event)
    (docs : list SearchIndexDoc) :
  mongo_collection W h (DbHandle dbName) colName = None ->
  mongo_listSearchIndexes W (h ++ [ECollection (DbHandle dbName) colName])
    (CollectionHandle dbName colName) = None ->
  mongo_toArray W
    ((h ++ [ECollection (DbHandle dbName) colName])
     ++ [EListSearchIndexes (CollectionHandle dbName colName)])
    (CursorHandle dbName colName) = Ok docs ->
  listExistingIndexes W (DbHandle dbName) colName h
  = (Ok (map idx_name docs),
     [ ECollection (DbHandle dbName) colName;
       EListSearchIndexes (CollectionHandle dbName colName);
       EToArray (CursorHandle dbName colName) ]).
Proof.
  intros Hcol Hlist Harr. programs. run.
  rewrite Hcol, Hlist. cbn. now rewrite Harr.
Qed.

Lemma listExistingIndexes_lists_names_witness :
  listExistingIndexes healthy shop "products" []
  = (Ok ["vector"],
     [ ECollection shop "products";
       EListSearchIndexes (CollectionHandle "shop" "products");
       EToArray (CursorHandle "shop" "products") ]).
Proof.
  apply (listExistingIndexes_lists_names healthy "shop" "products" []
           [ {| idx_name := "vector"; idx_rest := JNull |} ]);
    reflexivity.
Defined.

(** X2: [db.collection] stands before the [try]: when it throws,
    [listExistingIndexes] throws that error, having made no other call and
    logged nothing; and no other error ever leaves [listExistingIndexes]. *)
Theorem listExistingIndexes_lets_out_collection_error
    (W : World) (db : Db) (colName : string) (h : list event) (e : error) :
  (mongo_collection W h db colName = Some e ->
   listExistingIndexes W db colName h = (Throw e, [ECollection db colName]))
  ∧ (outcome (listExistingIndexes W db colName h) = Throw e ->
     mongo_collection W h db colName = Some e).
Proof.
  destruct db as [dbName]. programs. run.
  destruct (mongo_collection W h _ _) as [e'|]; cbn.
  - split; [intros He | intros He]; now inversion He.
  - split; [discriminate|].
    destruct (mongo_listSearchIndexes W _ _); cbn; [discriminate|].
    toArray_cases; cbn; discriminate.
Qed.

Lemma listExistingIndexes_lets_out_collection_error_witness :
  listExistingIndexes no_collection shop "" []
  = (Throw (MongoError "collection names cannot be empty"),
     [ECollection shop ""]).
Proof.
  apply (proj1 (listExistingIndexes_lets_out_collection_error
                  no_collection shop "" []
                  (MongoError "collection names cannot be empty"))).
  reflexivity.
Defined.

(** X3: [showIndexDefinitions] has no [try]: the listing failure that
    [listExistingIndexes] turns into an empty list makes it throw, with
    nothing printed. *)
Theorem showIndexDefinitions_listing_failure_propagates
    (W : World) (dbName colName : string) (h : list event) (err : error) :
  mongo_collection W h (DbHandle dbName) colName = None ->
  mongo_listSearchIndexes W (h ++ [ECollection (DbHandle dbName) colName])
    (CollectionHandle dbName colName) = Some err
  ∨ (mongo_listSearchIndexes W (h ++ [ECollection (DbHandle dbName) colName])
       (CollectionHandle dbName colName) = None
     ∧ mongo_toArray W
         ((h ++ [ECollection (DbHandle dbName) colName])
          ++ [EListSearchIndexes (CollectionHandle dbName colName)])
         (CursorHandle dbName colName) = Throw err) ->
  outcome (showIndexDefinitions W (DbHandle dbName) colName h) = Throw err
  ∧ List.filter is_console
      (emitted (showIndexDefinitions W (DbHandle dbName) colName h)) = [].
Proof.
  intros Hcol Hfail. programs. run. rewrite Hcol.
  destruct Hfail as [Hlist | [Hlist Harr]]; rewrite Hlist; cbn.
  - split; reflexivity.
  - rewrite Harr. split; reflexivity.
Qed.

Lemma showIndexDefinitions_listing_failure_propagates_witness :
  outcome (showIndexDefinitions no_listing shop "products" [])
  = Throw (MongoError "$listSearchIndexes is not supported")
  ∧ List.filter is_console
      (emitted (showIndexDefinitions no_listing shop "products" [])) = [].
Proof.
  apply (showIndexDefinitions_listing_failure_propagates
           no_listing "shop" "products" []).
  - reflexivity.
  - right. split; reflexivity.
Defined.

(** The loop of [showIndexDefinitions] prints three lines for an index and
    cannot fail. *)
Lemma forEach_index_report (docs : list SearchIndexDoc) (h : list event) :
  forEach docs
    (λ idx,
       console_log [VString ("🟢 Index name: " +:+ idx_name idx)];;
       console_dir idx;;
       console_log [VString ("──────────────────────────────" +:+ nl)]) h
  = (Ok tt, flat_map index_report docs).
Proof.
  revert h. induction docs as [|idx rest IH]; intros h; [reflexivity|].
  cbn [forEach flat_map]. rewrite run_bind.
  change ((console_log [VString ("🟢 Index name: " +:+ idx_name idx)];;
           console_dir idx;;
           console_log [VString ("──────────────────────────────" +:+ nl)]) h)
    with (Ok tt, index_report idx).
  cbv beta iota. now rewrite IH.
Qed.

(** X4: when the listing succeeds, [showIndexDefinitions] returns; for an
    empty collection it prints the one line that says so, otherwise a heading
    and then, index by index in the server's order, the name, the whole
    document and a rule. *)
Theorem showIndexDefinitions_report
    (W : World) (dbName colName : string) (h : list event)
    (docs : list SearchIndexDoc) :
  mongo_collection W h (DbHandle dbName) colName = None ->
  mongo_listSearchIndexes W (h ++ [ECollection (DbHandle dbName) colName])
    (CollectionHandle dbName colName) = None ->
  mongo_toArray W
    ((h ++ [ECollection (DbHandle dbName) colName])
     ++ [EListSearchIndexes (CollectionHandle dbName colName)])
    (CursorHandle dbName colName) = Ok docs ->
  outcome (showIndexDefinitions W (DbHandle dbName) colName h) = Ok tt
  ∧ List.filter is_console
      (emitted (showIndexDefinitions W (DbHandle dbName) colName h))
    = match docs with
      | [] =>
          [EConsoleLog
             [VString ("No indexes found for collection " +:+ colName)]]
      | _ :: _ =>
          EConsoleLog
            [VString (nl +:+ "✔ Index definitions for '" +:+ colName +:+ "':"
                      +:+ nl)]
          :: flat_map index_report docs
      end.
Proof.
  intros Hcol Hlist Harr. unfold showIndexDefinitions.
  erewrite run_bind_ok
    by (unfold db_collection, call; rewrite Hcol; reflexivity).
  cbv beta.
  erewrite run_bind_ok
    by (unfold col_listSearchIndexes, call; rewrite Hlist; reflexivity).
  cbv beta.
  erewrite run_bind_ok
    by (unfold cursor_toArray, call; rewrite Harr; reflexivity).
  cbv beta.
  destruct docs as [|idx rest]; [split; reflexivity|].
  rewrite bool_decide_eq_false_2 by (cbn; lia).
  erewrite run_bind_ok by reflexivity.
  rewrite forEach_index_report.
  split; [reflexivity|].
  cbn [outcome emitted fst snd app List.filter is_console]. f_equal.
  apply forallb_filter_id. apply forallb_forall.
  intros ev Hev. apply in_flat_map in Hev as (d & _ & Hd).
  cbn in Hd. now destruct Hd as [<- | [<- | [<- | []]]].
Qed.

Lemma showIndexDefinitions_report_witness :
  outcome (showIndexDefinitions healthy shop "products" []) = Ok tt
  ∧ List.filter is_console
      (emitted (showIndexDefinitions healthy shop "products" []))
    = [ EConsoleLog
          [VString (nl +:+ "✔ Index definitions for 'products':" +:+ nl)];
        EConsoleLog [VString "🟢 Index name: vector"];
        EConsoleDir {| idx_name := "vector"; idx_rest := JNull |};
        EConsoleLog [VString ("──────────────────────────────" +:+ nl)] ].
Proof.
  apply (showIndexDefinitions_report healthy "shop" "products" []
           [ {| idx_name := "vector"; idx_rest := JNull |} ]);
    reflexivity.
Defined.

(** X5: the script as it stands is read-only.  In no world does either
    variant create or update a search index, read a definition file or call
    the embedding client: [main] never reaches [ensureIndex]. *)
Theorem script_is_read_only (W : World) (h : list event) :
  List.filter is_write_or_load (emitted (Part000.script W h)) = []
  ∧ List.filter is_write_or_load (emitted (CreateIndexes.script W h)) = [].
Proof.
  split; apply silent_filter;
    unfold Part000.script, Part000.main, CreateIndexes.script,
      CreateIndexes.main;
    programs; silence.
Qed.

(** ** Creating and updating *)

(** X6: [createIndex] sends the definition to [createSearchIndex] on the
    named collection and prints its line once the call has resolved; when
    the call rejects, the error leaves [createIndex] and no line is
    printed. *)
Theorem createIndex_logs_after_success
    (W : World) (dbName col name : string) (definition : json)
    (h : list event) :
  mongo_collection W h (DbHandle dbName) col = None ->
  (mongo_createSearchIndex W (h ++ [ECollection (DbHandle dbName) col])
     (CollectionHandle dbName col) definition = None ->
   createIndex W (DbHandle dbName) col name definition h
   = (Ok tt,
      [ ECollection (DbHandle dbName) col;
        ECreateSearchIndex (CollectionHandle dbName col) definition;
        EConsoleLog
          [VString ("Created index " +:+ name +:+ " on collection " +:+ col)]
      ]))
  ∧ (∀ e,
       mongo_createSearchIndex W (h ++ [ECollection (DbHandle dbName) col])
         (CollectionHandle dbName col) definition = Some e ->
       createIndex W (DbHandle dbName) col name definition h
       = (Throw e,
          [ ECollection (DbHandle dbName) col;
            ECreateSearchIndex (CollectionHandle dbName col) definition ])).
Proof.
  intros Hcol. programs. run. rewrite Hcol. cbn.
  split; [intros Hc | intros e Hc]; now rewrite Hc.
Qed.

Lemma createIndex_logs_after_success_witness :
  createIndex fresh shop "products" "vector" (JObject []) []
  = (Ok tt,
     [ ECollection shop "products";
       ECreateSearchIndex (CollectionHandle "shop" "products") (JObject []);
       EConsoleLog [VString "Created index vector on collection products"] ])
  ∧ createIndex refusing shop "products" "vector" (JObject []) []
    = (Throw (MongoError "not authorized"),
       [ ECollection shop "products";
         ECreateSearchIndex (CollectionHandle "shop" "products")
           (JObject []) ]).
Proof.
  split.
  - apply (proj1 (createIndex_logs_after_success fresh "shop" "products"
                    "vector" (JObject []) [] eq_refl)).
    reflexivity.
  - apply (proj2 (createIndex_logs_after_success refusing "shop" "products"
                    "vector" (JObject []) [] eq_refl)).
    reflexivity.
Defined.

(** X7: the [name] given to [createIndex] reaches the console only.  The
    driver is told the collection and the definition; two calls that differ
    in the name make the same driver calls and end the same way. *)
Theorem createIndex_name_is_not_sent
    (W : World) (db : Db) (col name name' : string) (definition : json)
    (h : list event) :
  outcome (createIndex W db col name definition h)
  = outcome (createIndex W db col name' definition h)
  ∧ List.filter (λ ev, negb (is_console ev))
      (emitted (createIndex W db col name definition h))
    = List.filter (λ ev, negb (is_console ev))
        (emitted (createIndex W db col name' definition h)).
Proof.
  destruct db as [dbName]. programs. run.
  destruct (mongo_collection W h _ _); cbn; [now split|].
  destruct (mongo_createSearchIndex W _ _ _); cbn; now split.
Qed.

(** X8: [updateIndex] sends the name and the definition to
    [updateSearchIndex] and prints its line once the call has resolved; when
    the call rejects, the error leaves [updateIndex] and no line is
    printed. *)
Theorem updateIndex_logs_after_success
    (W : World) (dbName col name : string) (definition : json)
    (h : list event) :
  mongo_collection W h (DbHandle dbName) col = None ->
  (mongo_updateSearchIndex W (h ++ [ECollection (DbHandle dbName) col])
     (CollectionHandle dbName col) name definition = None ->
   updateIndex W (DbHandle dbName) col name definition h
   = (Ok tt,
      [ ECollection (DbHandle dbName) col;
        EUpdateSearchIndex (CollectionHandle dbName col) name definition;
        EConsoleLog
          [VString ("Updated index " +:+ name +:+ " on collection " +:+ col)]
      ]))
  ∧ (∀ e,
       mongo_updateSearchIndex W (h ++ [ECollection (DbHandle dbName) col])
         (CollectionHandle dbName col) name definition = Some e ->
       updateIndex W (DbHandle dbName) col name definition h
       = (Throw e,
          [ ECollection (DbHandle dbName) col;
            EUpdateSearchIndex (CollectionHandle dbName col) name definition
          ])).
Proof.
  intros Hcol. programs. run. rewrite Hcol. cbn.
  split; [intros Hc | intros e Hc]; now rewrite Hc.
Qed.

Lemma updateIndex_logs_after_success_witness :
  updateIndex healthy shop "products" "vector" (JObject []) []
  = (Ok tt,
     [ ECollection shop "products";
       EUpdateSearchIndex (CollectionHandle "shop" "products") "vector"
         (JObject []);
       EConsoleLog [VString "Updated index vector on collection products"] ])
  ∧ updateIndex refusing shop "products" "vector" (JObject []) []
    = (Throw (MongoError "not authorized"),
       [ ECollection shop "products";
         EUpdateSearchIndex (CollectionHandle "shop" "products") "vector"
           (JObject []) ]).
Proof.
  split.
  - apply (proj1 (updateIndex_logs_after_success healthy "shop" "products"
                    "vector" (JObject []) [] eq_refl)).
    reflexivity.
  - apply (proj2 (updateIndex_logs_after_success refusing "shop" "products"
                    "vector" (JObject []) [] eq_refl)).
    reflexivity.
Defined.

(** ** The script as a whole *)



Lemma answered_allb_true (W : World) (h : list event) :
  answered_allb W h = true -> answered_all W h.
Proof.
  unfold answered_allb, answered_all. intros Hall i Hi.
  rewrite List.forallb_forall in Hall. specialize (Hall i).
  destruct (stdin W (questions_asked h + i)); [now eexists|].
  assert (false = true) by (apply Hall, in_seq; lia). discriminate.
Qed.

(** X10: the questions [main] asks, and their order, are settled by the two
    variables and by the answers: the connection string if [MONGODB_URI] is
    unset or empty, then, once that is answered, the database if
    [MONGODB_DB] is unset or empty, then, once that is answered, the
    collection; nothing later in [main] asks again. *)
Theorem main_asks_exactly (W : World) (h : list event) :
  List.filter is_question (emitted (Part000.main W h)) = questions_reached W h
  ∧ List.filter is_question (emitted (CreateIndexes.main W h))
    = questions_reached W h.
Proof.
  unfold Part000.main, CreateIndexes.main.
  split; apply gather_questions; programs; silence.
Qed.

(** X11: [main] makes no call to the driver before its questions are
    answered.  Once they all are, the first thing it does is to build the
    client, from the value of [MONGODB_URI] as it is when that is set and not
    empty, and else from the answer to its first question, trimmed; neither
    is checked.  If one is not, [main] stays pending with nothing done but
    the questions asked. *)
Theorem main_builds_client_first (W : World) (h : list event) :
  (answered_all W h ->
   (∃ rest,
      emitted (Part000.main W h)
      = questions W ++ ENewMongoClient (chosen_uri W h) :: rest)
   ∧ (∃ rest,
        emitted (CreateIndexes.main W h)
        = questions W ++ ENewMongoClient (chosen_uri W h) :: rest))
  ∧ (¬ answered_all W h ->
     Part000.main W h = (Pending, questions_reached W h)
     ∧ CreateIndexes.main W h = (Pending, questions_reached W h)).
Proof.
  unfold Part000.main, CreateIndexes.main. split.
  - intros Hall.
    split; rewrite gather_run by assumption; cbn [emitted snd];
      rewrite run_bind; unfold new_MongoClient at 1, call at 1;
      destruct (handle_answer _ _) as [client|e|]; cbn [snd];
      try (eexists; reflexivity);
      match goal with
      | |- context [let (_, _) := ?x in _] => destruct x
      end; eexists; reflexivity.
  - intros Hno. split; now apply gather_stalls.
Qed.

Lemma main_builds_client_first_witness :
  (∃ rest,
     emitted (CreateIndexes.main blank_env [])
     = [ EQuestion "Enter your MongoDB URI: ";
         EQuestion "Enter database name: ";
         EQuestion "Enter collection name: ";
         ENewMongoClient "mongodb://localhost:27017" ] ++ rest)
  ∧ CreateIndexes.main piped []
    = (Pending,
       [ EQuestion "Enter your MongoDB URI: ";
         EQuestion "Enter database name: " ]).
Proof.
  split.
  - apply (proj1 (main_builds_client_first blank_env [])).
    apply answered_allb_true. vm_compute. reflexivity.
  - apply (proj2 (main_builds_client_first piped [])).
    intros Hall. destruct (Hall 1) as [l Hl].
    + vm_compute. lia.
    + vm_compute in Hl. discriminate Hl.
Defined.

(** A line of blanks typed for the connection string gives the client the
    empty string, which the driver refuses; a set variable is not trimmed. *)
Example blank_answer_builds_client :
  CreateIndexes.main blank_answer []
  = (Throw (MongoError "Invalid scheme, expected mongodb:// or mongodb+srv://"),
     [ EQuestion "Enter your MongoDB URI: ";
       EQuestion "Enter collection name: ";
       ENewMongoClient "" ]).
Proof. vm_compute. reflexivity. Qed.

(** X12: when its questions are answered and every driver call but the
    listing succeeds, the shorter script connects once and closes once, in
    that order, and returns, whether the listing worked or not. *)
Theorem short_main_closes_whatever_the_listing (W : World) (h : list event) :
  answered_all W h ->
  driver_up W (chosen_uri W h) (chosen_db W h) (chosen_col W h) ->
  outcome (CreateIndexes.main W h) = Ok tt
  ∧ List.filter (λ ev, is_connect ev || is_close ev)
      (emitted (CreateIndexes.main W h))
    = [ EConnect (ClientHandle (chosen_uri W h));
        EClose (ClientHandle (chosen_uri W h)) ].
Proof.
  intros Hall (Hnew & Hconn & Hdb & Hcol & Hclose).
  assert (Hq : List.filter (λ ev, is_connect ev || is_close ev) (questions W)
               = []).
  { unfold questions, uri_asked, db_asked.
    now destruct (truthy (env W !! "MONGODB_URI")),
      (truthy (env W !! "MONGODB_DB")). }
  unfold CreateIndexes.main. rewrite gather_run by assumption.
  cbn [outcome emitted fst snd]. rewrite List.filter_app, Hq.
  generalize (h ++ questions W). intros h'.
  programs. run. rewrite Hnew, Hconn, Hdb, Hcol. cbn.
  destruct (mongo_listSearchIndexes W _ _); cbn;
    [|toArray_cases; cbn];
    rewrite Hclose; split; reflexivity.
Qed.

Lemma short_main_closes_whatever_the_listing_witness :
  outcome (CreateIndexes.main no_listing []) = Ok tt
  ∧ List.filter (λ ev, is_connect ev || is_close ev)
      (emitted (CreateIndexes.main no_listing []))
    = [ EConnect (ClientHandle "mongodb://localhost:27017");
        EClose (ClientHandle "mongodb://localhost:27017") ].
Proof.
  apply (short_main_closes_whatever_the_listing no_listing []).
  - apply answered_allb_true. vm_compute. reflexivity.
  - repeat split; intros h; reflexivity.
Defined.

(** X13: where the server knows no search-index listing, the longer script
    cannot finish: with its questions answered and every other driver call
    succeeding, [main] logs the
    failed listing, prints the empty list, throws the listing's error from
    [showIndexDefinitions] and leaves the client open. *)
Theorem long_main_fails_without_listing
    (W : World) (h : list event) (err : error) :
  answered_all W h ->
  driver_up W (chosen_uri W h) (chosen_db W h) (chosen_col W h) ->
  (∀ h' c, mongo_listSearchIndexes W h' c = None) ->
  (∀ h' c, mongo_toArray W h' c = Throw err) ->
  outcome (Part000.main W h) = Throw err
  ∧ List.filter is_close (emitted (Part000.main W h)) = []
  ∧ List.filter is_console (emitted (Part000.main W h))
    = [ EConsoleError
          [VString ("Failed to list indexes for " +:+ chosen_col W h +:+ ":");
           VError err];
        EConsoleLog
          [VString (nl +:+ "Indexes on '" +:+ chosen_col W h +:+ "':");
           VStrings []] ].
Proof.
  intros Hall (Hnew & Hconn & Hdb & Hcol & Hclose) Hlist Harr.
  assert (Hq : List.filter is_close (questions W) = []
               ∧ List.filter is_console (questions W) = []).
  { unfold questions, uri_asked, db_asked.
    now destruct (truthy (env W !! "MONGODB_URI")),
      (truthy (env W !! "MONGODB_DB")). }
  destruct Hq as [Hq1 Hq2].
  unfold Part000.main. rewrite gather_run by assumption.
  cbn [outcome emitted fst snd]. rewrite !List.filter_app, Hq1, Hq2.
  generalize (h ++ questions W). intros h'.
  programs. run.
  rewrite Hnew, Hconn, Hdb, Hcol, Hlist. cbn.
  rewrite Harr. cbn. rewrite Hcol, Hlist. cbn. rewrite Harr.
  repeat split; reflexivity.
Qed.

Lemma long_main_fails_without_listing_witness :
  outcome (Part000.main no_listing [])
  = Throw (MongoError "$listSearchIndexes is not supported")
  ∧ List.filter is_close (emitted (Part000.main no_listing [])) = []
  ∧ List.filter is_console (emitted (Part000.main no_listing []))
    = [ EConsoleError
          [VString "Failed to list indexes for products:";
           VError (MongoError "$listSearchIndexes is not supported")];
        EConsoleLog
          [VString (nl +:+ "Indexes on 'products':"); VStrings []] ].
Proof.
  apply (long_main_fails_without_listing no_listing []
           (MongoError "$listSearchIndexes is not supported")).
  - apply answered_allb_true. vm_compute. reflexivity.
  - repeat split; intros h; reflexivity.
  - intros h c. reflexivity.
  - intros h c. reflexivity.
Defined.

(** ** The embedding client, further *)

(** X14: a rejection of the embeddings request leaves the function as it
    is, uncaught, after the one request. *)
Theorem getEmbedding_remote_error_propagates
    (W : World) (text : string) (h : list event) (e : error) :
  openai_new W h (env_options W) = None ->
  openai_embeddings_create W (h ++ [ENewOpenAI (env_options W)])
    (OpenAIHandle (env_options W)) (env_params W text) = Throw e ->
  getEmbeddingFromAzureSDK W text h
  = (Throw e,
     [ ENewOpenAI (env_options W);
       EEmbeddingsCreate (OpenAIHandle (env_options W)) (env_params W text) ]).
Proof.
  intros Hnew Hcreate. unfold env_options, env_params in *. programs. run.
  rewrite Hnew. cbn. now rewrite Hcreate.
Qed.

Lemma getEmbedding_remote_error_propagates_witness :
  outcome (getEmbeddingFromAzureSDK endpoint_down "hello" [])
  = Throw (OpenAIError "401 Unauthorized").
Proof.
  rewrite (getEmbedding_remote_error_propagates endpoint_down "hello" []
             (OpenAIError "401 Unauthorized")).
  - reflexivity.
  - vm_compute. reflexivity.
  - reflexivity.
Defined.


(** ** Reconciling, further *)

(** The outcome of [loadDefinition] does not hang on what was called
    before. *)
Lemma loadDefinition_settles (W : World) (file : string) h :
  outcome (loadDefinition W file h) ≠ Pending.
Proof.
  programs. run. destruct (fs W !! _); cbn; [|discriminate].
  destruct (json_parse W _); discriminate.
Qed.

Lemma loadDefinition_outcome_any_history (W : World) (file : string) h h' :
  outcome (loadDefinition W file h) = outcome (loadDefinition W file h').
Proof.
  programs. run. destruct (fs W !! _); cbn; [|reflexivity].
  now destruct (json_parse W _).
Qed.

(** X16: with the collection handle at hand, [ensureIndex] succeeds exactly
    when the spec's definition loads, and throws the loader's error when it
    does not; what the listing answered, or that it failed, changes
    nothing.  The listing is asked for before the file is read. *)
Theorem ensureIndex_outcome_is_the_loaders
    (W : World) (dbName : string) (spec : IndexSpec) (h : list event) :
  (∀ h', mongo_collection W h' (DbHandle dbName) (col spec) = None) ->
  outcome (ensureIndex W (DbHandle dbName) spec h)
  = match outcome (loadDefinition W (file spec) []) with
    | Ok _ => Ok tt
    | Throw e => Throw e
    | Pending => Pending
    end
  ∧ ∃ listing rest,
      emitted (ensureIndex W (DbHandle dbName) spec h)
      = ECollection (DbHandle dbName) (col spec)
        :: EListSearchIndexes (CollectionHandle dbName (col spec))
        :: listing
        ++ EReadFileSync (definition_path W (file spec)) :: rest
      ∧ Forall (λ ev, match ev with
                      | EToArray _ | EConsoleError _ => True
                      | _ => False
                      end) listing.
Proof.
  intros Hcol. unfold definition_path. programs. run. rewrite !Hcol. cbn.
  destruct (mongo_listSearchIndexes W _ _) as [e|]; cbn;
    [|toArray_cases; cbn];
    (destruct (fs W !! _); cbn;
     [destruct (json_parse W _); cbn;
      [rewrite ?Hcol; cbn; try destruct (includes _ _)|]|]);
    (split; [reflexivity|]).
  1-3: eexists [EConsoleError _], _; split; [reflexivity|repeat constructor].
  1-4: eexists [EToArray _], _; split; [reflexivity|repeat constructor].
  all: eexists [EToArray _; EConsoleError _], _;
    split; [reflexivity|repeat constructor].
Qed.

Lemma ensureIndex_outcome_is_the_loaders_witness :
  outcome (ensureIndex no_listing shop
             {| col := "products"; name := "vector"; file := "gone.json" |} [])
  = Throw (SystemError "ENOENT" "open" "/app/config/indexes/gone.json").
Proof.
  exact (proj1 (ensureIndex_outcome_is_the_loaders no_listing "shop"
                  {| col := "products"; name := "vector";
                     file := "gone.json" |} []
                  (λ _, eq_refl))).
Defined.

(** ** Prompting *)

Lemma strip_blanks (flip : bool) (pre s : list ascii) :
  blanks pre -> strip flip (pre ++ s) = strip flip s.
Proof.
  induction 1 as [|a pre Ha _ IH]; [reflexivity|].
  cbn [app strip]. now rewrite Ha.
Qed.

Lemma ws2_high (a b : ascii) :
  ws2 a b = true -> 128 ≤ nat_of_ascii a ∧ 128 ≤ nat_of_ascii b.
Proof.
  unfold ws2. intros H%bool_decide_eq_true. inversion H as [[Ha Hb]].
  lia.
Qed.

Lemma ws3_high (a b c : ascii) :
  ws3 a b c = true -> 128 ≤ nat_of_ascii a ∧ 128 ≤ nat_of_ascii c.
Proof.
  unfold ws3. intros H. apply orb_true_iff in H as [H | H].
  - apply bool_decide_eq_true in H.
    repeat (apply elem_of_cons in H as [H | H];
            [inversion H as [[Ha Hb Hc]]; lia|]).
    now apply elem_of_nil in H.
  - repeat (apply andb_true_iff in H as [H ?]).
    repeat match goal with
           | H : bool_decide _ = true |- _ => apply bool_decide_eq_true in H
           end.
    lia.
Qed.

Lemma strip_visible (flip : bool) (a : ascii) (s : list ascii) :
  visible a -> strip flip (a :: s) = a :: s.
Proof.
  intros [Hlow Hws]. cbn [strip]. rewrite Hws.
  destruct s as [|b s]; [reflexivity|].
  destruct (if flip then ws2 b a else ws2 a b) eqn:H2.
  { destruct flip; apply ws2_high in H2; lia. }
  destruct s as [|c s]; [reflexivity|].
  destruct (if flip then ws3 c b a else ws3 a b c) eqn:H3; [|reflexivity].
  destruct flip; apply ws3_high in H3; lia.
Qed.

Lemma strip_solid (pre core post : list ascii) :
  blanks pre -> blanks post -> solid core ->
  rev (strip true (rev (strip false (pre ++ core ++ post)))) = core.
Proof.
  intros Hpre Hpost [-> | (a & z & Ha & Hz & Hva & Hvz)].
  - rewrite strip_blanks by assumption. cbn [app].
    replace post with (post ++ []) by apply app_nil_r.
    now rewrite strip_blanks by assumption.
  - rewrite strip_blanks by assumption.
    destruct core as [|a' core]; [discriminate|].
    cbn in Ha. inversion Ha; subst a'.
    cbn [app]. rewrite strip_visible by assumption.
    change (a :: core ++ post) with ((a :: core) ++ post).
    rewrite rev_app_distr.
    rewrite strip_blanks by (unfold blanks in *; now apply Forall_rev).
    apply last_Some in Hz as [mid Hmid]. rewrite Hmid.
    rewrite rev_app_distr. cbn [rev app].
    rewrite strip_visible by assumption.
    change (z :: rev mid) with ([z] ++ rev mid).
    now rewrite rev_app_distr, rev_involutive.
Qed.

(** X17: the line a question receives reaches the script without the
    blanks, tabs and line ends around it, and with those inside it kept; a
    line of blanks reaches it as the empty string. *)
Theorem prompt_trims_the_answer
    (W : World) (question : string) (h : list event)
    (pre core post : list ascii) :
  stdin W (questions_asked h)
  = Some (String.string_of_list_ascii (pre ++ core ++ post)) ->
  blanks pre -> blanks post -> solid core ->
  prompt W question h
  = (Ok (String.string_of_list_ascii core), [EQuestion question]).
Proof.
  intros Hline Hpre Hpost Hcore. unfold prompt, call, trim.
  rewrite Hline, String.list_ascii_of_string_of_list_ascii.
  now rewrite strip_solid.
Qed.

Lemma prompt_trims_the_answer_witness :
  prompt blank_env "Enter your MongoDB URI: " []
  = (Ok "mongodb://localhost:27017", [EQuestion "Enter your MongoDB URI: "])
  ∧ prompt blank_answer "Enter your MongoDB URI: " []
    = (Ok "", [EQuestion "Enter your MongoDB URI: "]).
Proof.
  split.
  - apply (prompt_trims_the_answer blank_env "Enter your MongoDB URI: " []
             (String.list_ascii_of_string "  ")
             (String.list_ascii_of_string "mongodb://localhost:27017")
             (String.list_ascii_of_string " ")).
    + reflexivity.
    + repeat constructor.
    + repeat constructor.
    + right. exists "m"%char, "7"%char.
      repeat split; try reflexivity; apply Nat.ltb_lt; reflexivity.
  - apply (prompt_trims_the_answer blank_answer "Enter your MongoDB URI: " []
             (String.list_ascii_of_string "   ") [] []).
    + reflexivity.
    + repeat constructor.
    + constructor.
    + now left.
Defined.

(** ** A run without error *)

Section Up.
Context (W : World) (dbName colName : string) (docs : list SearchIndexDoc).
Hypothesis collection_up :
  ∀ h, mongo_collection W h (DbHandle dbName) colName = None.
Hypothesis listing_up : ∀ h c, mongo_listSearchIndexes W h c = None.
Hypothesis documents : ∀ h c, mongo_toArray W h c = Ok docs.

Lemma listExistingIndexes_up h :
  listExistingIndexes W (DbHandle dbName) colName h
  = (Ok (map idx_name docs), listing_calls dbName colName).
Proof.
  programs. run. rewrite collection_up, listing_up. cbn.
  now rewrite documents.
Qed.

Lemma showIndexDefinitions_up h :
  showIndexDefinitions W (DbHandle dbName) colName h
  = (Ok tt, listing_calls dbName colName ++ definitions_report colName docs).
Proof.
  unfold showIndexDefinitions.
  erewrite run_bind_ok
    by (unfold db_collection, call; rewrite collection_up; reflexivity).
  cbv beta.
  erewrite run_bind_ok
    by (unfold col_listSearchIndexes, call; rewrite listing_up; reflexivity).
  cbv beta.
  erewrite run_bind_ok
    by (unfold cursor_toArray, call; rewrite documents; reflexivity).
  cbv beta.
  destruct docs as [|idx rest]; [reflexivity|].
  rewrite bool_decide_eq_false_2 by (cbn; lia).
  erewrite run_bind_ok by reflexivity.
  now rewrite forEach_index_report.
Qed.
End Up.

(** X18: a run of the shorter script in which every question is answered
    and every driver call succeeds:
    the questions, the client, the connection, the database, one listing, the
    line with the names in the server's order, and the closing of the
    client. *)
Theorem short_main_run
    (W : World) (h : list event) (docs : list SearchIndexDoc) :
  answered_all W h ->
  driver_up W (chosen_uri W h) (chosen_db W h) (chosen_col W h) ->
  (∀ h' c, mongo_listSearchIndexes W h' c = None) ->
  (∀ h' c, mongo_toArray W h' c = Ok docs) ->
  CreateIndexes.main W h
  = (Ok tt,
     questions W
     ++ [ ENewMongoClient (chosen_uri W h);
          EConnect (ClientHandle (chosen_uri W h));
          EDb (ClientHandle (chosen_uri W h)) (chosen_db W h) ]
     ++ listing_calls (chosen_db W h) (chosen_col W h)
     ++ [ EConsoleLog
            [VString (nl +:+ "Indexes on '" +:+ chosen_col W h +:+ "':");
             VStrings (map idx_name docs)];
          EClose (ClientHandle (chosen_uri W h)) ]).
Proof.
  intros Hall (Hnew & Hconn & Hdb & Hcol & Hclose) Hlist Harr.
  unfold CreateIndexes.main. rewrite gather_run by assumption.
  generalize (h ++ questions W). intros h'.
  erewrite run_bind_ok
    by (unfold new_MongoClient, call; rewrite Hnew; reflexivity).
  cbv beta.
  erewrite run_bind_ok
    by (unfold client_connect, call; rewrite Hconn; reflexivity).
  cbv beta.
  erewrite run_bind_ok by (unfold client_db, call; rewrite Hdb; reflexivity).
  cbv beta.
  erewrite run_bind_ok by (now apply listExistingIndexes_up).
  cbv beta.
  erewrite run_bind_ok by reflexivity.
  unfold client_close, call. rewrite Hclose. reflexivity.
Qed.

Lemma short_main_run_witness :
  CreateIndexes.main healthy []
  = (Ok tt,
     [ EQuestion "Enter collection name: ";
       ENewMongoClient "mongodb://localhost:27017";
       EConnect (ClientHandle "mongodb://localhost:27017");
       EDb (ClientHandle "mongodb://localhost:27017") "shop";
       ECollection shop "products";
       EListSearchIndexes (CollectionHandle "shop" "products");
       EToArray (CursorHandle "shop" "products");
       EConsoleLog [VString (nl +:+ "Indexes on 'products':");
                    VStrings ["vector"]];
       EClose (ClientHandle "mongodb://localhost:27017") ]).
Proof.
  apply (short_main_run healthy []
           [ {| idx_name := "vector"; idx_rest := JNull |} ]).
  - apply answered_allb_true. vm_compute. reflexivity.
  - repeat split; intros h; reflexivity.
  - intros h c. reflexivity.
  - intros h c. reflexivity.
Defined.

(** X19: a run of the longer script in which every question is answered
    and every driver call succeeds does what the shorter one does up to the line with the names, then asks the
    server for the same listing a second time, prints the report of
    [showIndexDefinitions], and closes the client. *)
Theorem long_main_run
    (W : World) (h : list event) (docs : list SearchIndexDoc) :
  answered_all W h ->
  driver_up W (chosen_uri W h) (chosen_db W h) (chosen_col W h) ->
  (∀ h' c, mongo_listSearchIndexes W h' c = None) ->
  (∀ h' c, mongo_toArray W h' c = Ok docs) ->
  Part000.main W h
  = (Ok tt,
     questions W
     ++ [ ENewMongoClient (chosen_uri W h);
          EConnect (ClientHandle (chosen_uri W h));
          EDb (ClientHandle (chosen_uri W h)) (chosen_db W h) ]
     ++ listing_calls (chosen_db W h) (chosen_col W h)
     ++ [ EConsoleLog
            [VString (nl +:+ "Indexes on '" +:+ chosen_col W h +:+ "':");
             VStrings (map idx_name docs)] ]
     ++ listing_calls (chosen_db W h) (chosen_col W h)
     ++ definitions_report (chosen_col W h) docs
     ++ [ EClose (ClientHandle (chosen_uri W h)) ]).
Proof.
  intros Hall (Hnew & Hconn & Hdb & Hcol & Hclose) Hlist Harr.
  unfold Part000.main. rewrite gather_run by assumption.
  generalize (h ++ questions W). intros h'.
  erewrite run_bind_ok
    by (unfold new_MongoClient, call; rewrite Hnew; reflexivity).
  cbv beta.
  erewrite run_bind_ok
    by (unfold client_connect, call; rewrite Hconn; reflexivity).
  cbv beta.
  erewrite run_bind_ok by (unfold client_db, call; rewrite Hdb; reflexivity).
  cbv beta.
  erewrite run_bind_ok by (now apply listExistingIndexes_up).
  cbv beta.
  erewrite run_bind_ok by reflexivity.
  erewrite run_bind_ok by (now apply showIndexDefinitions_up).
  unfold client_close, call. rewrite Hclose.
  reflexivity.
Qed.

Lemma long_main_run_witness :
  Part000.main fresh []
  = (Ok tt,
     [ EQuestion "Enter collection name: ";
       ENewMongoClient "mongodb://localhost:27017";
       EConnect (ClientHandle "mongodb://localhost:27017");
       EDb (ClientHandle "mongodb://localhost:27017") "shop";
       ECollection shop "products";
       EListSearchIndexes (CollectionHandle "shop" "products");
       EToArray (CursorHandle "shop" "products");
       EConsoleLog [VString (nl +:+ "Indexes on 'products':"); VStrings []];
       ECollection shop "products";
       EListSearchIndexes (CollectionHandle "shop" "products");
       EToArray (CursorHandle "shop" "products");
       EConsoleLog [VString "No indexes found for collection products"];
       EClose (ClientHandle "mongodb://localhost:27017") ]).
Proof.
  apply (long_main_run fresh [] []).
  - apply answered_allb_true. vm_compute. reflexivity.
  - repeat split; intros h; reflexivity.
  - intros h c. reflexivity.
  - intros h c. reflexivity.
Defined.
